(** * NeoroSense account backend: the authentication and session contract

    A shallow embedding of the Express application of the repository
    (routes [/api/auth/register], [/api/auth/login], [/api/auth/me],
    [/api/users/update], [/api/progress] and [authMiddleware]) together
    with the properties of its natural-language specification.

    Conventions of the embedding.
    - The [users] collection is a finite map from [_id] to the stored
      fields; MongoDB's primary key makes [_id] unique, which the map
      type records.
    - Text fields of a JSON request body are [option string]: [None] is
      JavaScript's [undefined] (the member is absent), [Some s] a string.
    - Strings are sequences of (UTF-8) bytes, that is well-formed Unicode
      text; a JavaScript string with an unpaired surrogate has no such
      form and is not modelled.
    - Instants are milliseconds since the epoch ([Date.now()]), in [Z].
    - The npm libraries the handlers call (bcryptjs, jsonwebtoken) and
      mongoose's date cast are the fields of the class [Platform]. *)

From Stdlib Require Import ZArith Ascii String List Bool Lia DecimalString.
From stdpp Require Import base option strings list gmap fin_maps.
Import ListNotations.

Local Open Scope Z_scope.
Local Open Scope string_scope.
Set Warnings "-register-all".

(** ** JavaScript helpers *)

(** Truthiness of a string: only the empty string is falsy. *)
Definition truthy (s : string) : bool := negb (String.eqb s "").

(** Truthiness of a body member: [undefined] is falsy. *)
Definition truthy_opt (o : option string) : bool :=
  match o with
  | Some s => truthy s
  | None => false
  end.

(** [s.split(sep)] for a one-character separator. *)
Fixpoint split (sep : ascii) (s : string) : list string :=
  match s with
  | EmptyString => [EmptyString]
  | String c r =>
      if Ascii.eqb c sep then EmptyString :: split sep r
      else match split sep r with
           | h :: t => String c h :: t
           | [] => [String c EmptyString]
           end
  end.

(** [encodeURIComponent]: the unreserved characters are kept, every other
    byte is written as a percent sign and two upper-case hex digits. *)
Definition in_range (lo hi : nat) (c : ascii) : bool :=
  (Nat.leb lo (nat_of_ascii c) && Nat.leb (nat_of_ascii c) hi)%bool.

Definition unreserved (c : ascii) : bool :=
  (in_range 65 90 c || in_range 97 122 c || in_range 48 57 c
   || existsb (Ascii.eqb c) (list_ascii_of_string "-_.!~*'()"))%bool.

Definition hex_digit (n : nat) : ascii :=
  match nth_error (list_ascii_of_string "0123456789ABCDEF") n with
  | Some c => c
  | None => "0"%char
  end.

Definition percent_byte (c : ascii) : string :=
  String "%"%char
    (String (hex_digit (Nat.div (nat_of_ascii c) 16))
       (String (hex_digit (Nat.modulo (nat_of_ascii c) 16)) EmptyString)).

Fixpoint encodeURIComponent (s : string) : string :=
  match s with
  | EmptyString => EmptyString
  | String c r =>
      if unreserved c then String c (encodeURIComponent r)
      else percent_byte c ++ encodeURIComponent r
  end.

(** ** JSON response bodies *)

(** [JIso ms] is the ISO-8601 text of the instant [ms], which is what
    [Date.prototype.toISOString] returns and what [res.json] writes for a
    [Date] value. *)
Inductive json : Type :=
| JStr (s : string)
| JNum (n : Z)
| JIso (ms : Z)
| JArr (items : list json)
| JObj (members : list (string * json)).

(** Does some object inside [j], at any depth, have a member named [k]? *)
Fixpoint has_member (k : string) (j : json) : bool :=
  match j with
  | JArr items => existsb (has_member k) items
  | JObj members =>
      existsb (fun m => match m with
                        | (key, v) => (String.eqb key k || has_member k v)%bool
                        end) members
  | _ => false
  end.

Record Response := mkResponse { status : Z; body : json }.

(** [res.status(code).json({ message })]. *)
Definition message_body (msg : string) : json := JObj [("message", JStr msg)].

(** ** The user collection *)

(** [UserSchema]; the key of the collection is [_id]. *)
Record User := mkUser {
  name : string;
  email : string;
  password : string;
  phone : string;
  birthdate : option Z;
  createdAt : Z
}.

Abbreviation Store := (gmap string User).

(** A mongoose document held by a handler: its [_id], its fields, and
    whether an assignment has left a cast error on some path (reported
    by validation when the document is saved). *)
Record Doc := mkDoc { _id : string; fields : User; castError : bool }.

Definition set_name (v : string) (d : Doc) : Doc :=
  let u := fields d in
  mkDoc (_id d) (mkUser v (email u) (password u) (phone u) (birthdate u) (createdAt u))
        (castError d).

Definition set_email (v : string) (d : Doc) : Doc :=
  let u := fields d in
  mkDoc (_id d) (mkUser (name u) v (password u) (phone u) (birthdate u) (createdAt u))
        (castError d).

Definition set_phone (v : string) (d : Doc) : Doc :=
  let u := fields d in
  mkDoc (_id d) (mkUser (name u) (email u) (password u) v (birthdate u) (createdAt u))
        (castError d).

Definition set_password (v : string) (d : Doc) : Doc :=
  let u := fields d in
  mkDoc (_id d) (mkUser (name u) (email u) v (phone u) (birthdate u) (createdAt u))
        (castError d).

(** The stored documents whose email is [e], in the collection's order. *)
Definition with_email (e : string) (s : Store) : list (string * User) :=
  List.filter (fun p => String.eqb (email (snd p)) e) (map_to_list s).

(** Is [e] the email of a stored document other than [self]?  This is the
    test of the unique index that [unique: true] puts on [email]. *)
Definition email_taken (self : string) (e : string) (s : Store) : bool :=
  existsb (fun p => negb (String.eqb (fst p) self)) (with_email e s).

(** The [required: true] validators: a required string path must hold a
    non-empty string. *)
Definition required_ok (u : User) : bool :=
  (truthy (name u) && truthy (email u) && truthy (password u))%bool.

(** ** Libraries and environment *)

(** The payload of a session token: the two claims the handlers sign,
    the [iat] and [exp] stamps (in seconds) that jsonwebtoken adds, and
    the not-before stamp [nbf] that a token signed elsewhere with the
    same key may carry. *)
Record Claims := mkClaims {
  userId : string;
  claim_email : string;
  iat : Z;
  exp : Z;
  nbf : option Z
}.

(** The library functions the application calls.
    - [bcrypt_hash plaintext salt]: [bcrypt.hash(plaintext, 10)], where
      [salt] is the salt the call generates;
    - [bcrypt_compare plaintext digest]: [bcrypt.compare];
    - [jws_sign payload key]: the compact serialisation of the signed
      payload; [jws_verify token key]: the payload of a token that parses
      and whose signature verifies under [key];
    - [castDate]: mongoose's cast of a string to a [Date] path;
    - [castObjectId]: whether mongoose casts the string to an [ObjectId]. *)
Class Platform := {
  bcrypt_hash : string -> string -> string;
  bcrypt_compare : string -> string -> bool;
  jws_sign : Claims -> string -> string;
  jws_verify : string -> string -> option Claims;
  castDate : string -> option Z;
  castObjectId : string -> bool
}.

(** What a request reads from its process and its moment: the
    [JWT_SECRET] variable, the clock, and the fresh values drawn when a
    document is constructed ([objectId]) and a password hashed ([salt]). *)
Record Env := mkEnv {
  JWT_SECRET : option string;
  now : Z;
  objectId : string;
  salt : string
}.

(** [process.env.JWT_SECRET || 'your-secret-key'] *)
Definition secret (env : Env) : string :=
  match JWT_SECRET env with
  | Some k => if truthy k then k else "your-secret-key"
  | None => "your-secret-key"
  end.

(** ['7d'] in seconds. *)
Definition seven_days : Z := 7 * 24 * 60 * 60.

(** [jwt.sign({ userId, email }, key, { expiresIn: '7d' })] at instant [t]:
    jsonwebtoken stamps [iat] with the clock in whole seconds and [exp]
    with [iat] plus the span; no [nbf] is written. *)
Definition jwt_sign `{P : Platform} (uid em : string) (key : string) (t : Z) : string :=
  jws_sign (mkClaims uid em (t / 1000) (t / 1000 + seven_days) None) key.

(** Is the token not yet active at the clock second [sec]? *)
Definition not_before (c : Claims) (sec : Z) : bool :=
  match nbf c with
  | Some n => Z.ltb sec n
  | None => false
  end.

(** [jwt.verify(token, key)] at instant [t]: [None] stands for the thrown
    [JsonWebTokenError], [NotBeforeError] or [TokenExpiredError];
    jsonwebtoken refuses a token whose [nbf] is later than the clock, in
    whole seconds, and a token whose [exp] the clock has reached. *)
Definition jwt_verify `{P : Platform} (token key : string) (t : Z) : option Claims :=
  match jws_verify token key with
  | Some c =>
      if not_before c (t / 1000) then None
      else if Z.leb (exp c) (t / 1000) then None else Some c
  | None => None
  end.

(** ** Handlers as store transformers that may respond or throw *)

Inductive outcome (A : Type) : Type :=
| Value (a : A)
| Sent (r : Response)
| Thrown.
Arguments Value {A} a.
Arguments Sent {A} r.
Arguments Thrown {A}.

Definition Handler (A : Type) : Type := Store -> outcome A * Store.

Definition ret {A : Type} (a : A) : Handler A := fun s => (Value a, s).

Definition bind {A B : Type} (m : Handler A) (k : A -> Handler B) : Handler B :=
  fun s =>
    match m s with
    | (Value a, s') => k a s'
    | (Sent r, s') => (Sent r, s')
    | (Thrown, s') => (Thrown, s')
    end.

Notation "x <- m ;; k" := (bind m (fun x => k))
  (at level 100, m at next level, right associativity).
Notation "m ;;; k" := (bind m (fun _ => k))
  (at level 100, right associativity).

(** [return res.status(..).json(..)] *)
Definition respond {A : Type} (r : Response) : Handler A := fun s => (Sent r, s).

(** A rejected promise or a thrown exception. *)
Definition throw {A : Type} : Handler A := fun s => (Thrown, s).

(** [try { body } catch (error) { res.status(500).json(..) }] *)
Definition try_catch (h : Handler Empty_set) : Store -> Response * Store :=
  fun s =>
    match h s with
    | (Value v, _) => match v with end
    | (Sent r, s') => (r, s')
    | (Thrown, s') => (mkResponse 500 (message_body "Server error"), s')
    end.

(** [User.findOne({ email })]: an absent [email] is sent as [null], which
    no stored document matches, every stored email being a string. *)
Definition find_by_email (e : option string) (s : Store) : option Doc :=
  match e with
  | Some e => match with_email e s with
              | (i, u) :: _ => Some (mkDoc i u false)
              | [] => None
              end
  | None => None
  end.

Definition findOne (e : option string) : Handler (option Doc) :=
  fun s => (Value (find_by_email e s), s).

(** [User.findById(id)]: mongoose casts the id to an [ObjectId] and
    rejects with a [CastError] when the string is none.  Every stored
    [_id] is an [ObjectId], so the cast can only fail for an id that is
    not stored. *)
Definition findById `{P : Platform} (i : string) : Handler (option Doc) :=
  fun s =>
    match s !! i with
    | Some u => (Value (Some (mkDoc i u false)), s)
    | None => if castObjectId i then (Value None, s) else (Thrown, s)
    end.

(** [user.save()]: validation, then the write under the unique index on
    [email].  A new document is inserted, and an [_id] already in use is a
    duplicate key; an existing document is written over by its [_id]. *)
Definition accepts (s : Store) (d : Doc) : bool :=
  (negb (castError d) && required_ok (fields d)
   && negb (email_taken (_id d) (email (fields d)) s))%bool.

Definition save (is_new : bool) (d : Doc) : Handler unit :=
  fun s =>
    if negb (accepts s d) then (Thrown, s)
    else if is_new then
      match s !! _id d with
      | Some _ => (Thrown, s)
      | None => (Value tt, <[_id d := fields d]> s)
      end
    else (Value tt, <[_id d := fields d]> s).

(** [bcrypt.hash(password, 10)]: rejects when the plaintext is not a string. *)
Definition hash_password `{P : Platform} (env : Env) (p : option string) : Handler string :=
  match p with
  | Some p => ret (bcrypt_hash p (salt env))
  | None => throw
  end.

(** [bcrypt.compare(password, digest)]: rejects when the plaintext is not
    a string. *)
Definition compare_password `{P : Platform} (p : option string) (digest : string)
  : Handler bool :=
  match p with
  | Some p => ret (bcrypt_compare p digest)
  | None => throw
  end.

(** ** Requests *)

Record RegisterBody := mkRegisterBody {
  r_name : option string;
  r_email : option string;
  r_password : option string
}.

Record LoginBody := mkLoginBody {
  l_email : option string;
  l_password : option string
}.

Record UpdateBody := mkUpdateBody {
  u_name : option string;
  u_email : option string;
  u_phone : option string;
  u_birthdate : option string;
  u_currentPassword : option string;
  u_newPassword : option string
}.

(** The five routes of the contract; the protected ones carry the value
    of the [Authorization] header, if any. *)
Inductive Request : Type :=
| PostRegister (b : RegisterBody)
| PostLogin (b : LoginBody)
| GetMe (authorization : option string)
| PutUpdate (authorization : option string) (b : UpdateBody)
| GetProgress (authorization : option string).

(** ** Responses *)

Definition profileImage (n : string) : string :=
  "https://ui-avatars.com/api/?name=" ++ encodeURIComponent n ++ "&background=random".

(** The [user] object of the login, me and update responses. *)
Definition profile (d : Doc) : json :=
  let u := fields d in
  JObj [("id", JStr (_id d));
        ("name", JStr (name u));
        ("email", JStr (email u));
        ("phone", JStr (phone u));
        ("birthdate", match birthdate u with
                      | Some t => JIso t
                      | None => JStr ""
                      end);
        ("profileImage", JStr (profileImage (name u)))].

(** The [user] object of the register response. *)
Definition registered (d : Doc) : json :=
  let u := fields d in
  JObj [("id", JStr (_id d)); ("name", JStr (name u)); ("email", JStr (email u))].

(** ** The middleware *)

(** [req.headers.authorization?.split(' ')[1]] *)
Definition bearer (authorization : option string) : option string :=
  match authorization with
  | Some a => nth_error (split " "%char a) 1
  | None => None
  end.

(** [authMiddleware], with the rest of the route as [next]. *)
Definition authMiddleware `{P : Platform} (env : Env) (authorization : option string)
    (next : string -> Store -> Response * Store) : Store -> Response * Store :=
  fun s =>
    match bearer authorization with
    | Some token =>
        if truthy token then
          match jwt_verify token (secret env) (now env) with
          | Some decoded => next (userId decoded) s
          | None => (mkResponse 401 (message_body "Invalid token"), s)
          end
        else (mkResponse 401 (message_body "No token provided"), s)
    | None => (mkResponse 401 (message_body "No token provided"), s)
    end.

(** ** The route handlers *)

(** [new User({ name, email, password })]: the schema defaults fill
    [phone] and [createdAt].  A required path left [undefined] is written
    here as the empty string: the required validator rejects both alike
    when the document is saved, and nothing reads the document before. *)
Definition new_User (env : Env) (n e : option string) (hashed : string) : Doc :=
  mkDoc (objectId env)
        (mkUser (default "" n) (default "" e) hashed "" None (now env))
        false.

Definition register_handler `{P : Platform} (env : Env) (b : RegisterBody)
  : Handler Empty_set :=
  existingUser <- findOne (r_email b) ;;
  match existingUser with
  | Some _ => respond (mkResponse 400 (message_body "User already exists"))
  | None =>
      hashedPassword <- hash_password env (r_password b) ;;
      let user := new_User env (r_name b) (r_email b) hashedPassword in
      save true user ;;;
      let token := jwt_sign (_id user) (email (fields user)) (secret env) (now env) in
      respond (mkResponse 201
                 (JObj [("message", JStr "User created successfully");
                        ("token", JStr token);
                        ("user", registered user)]))
  end.

Definition login_handler `{P : Platform} (env : Env) (b : LoginBody)
  : Handler Empty_set :=
  user <- findOne (l_email b) ;;
  match user with
  | None => respond (mkResponse 400 (message_body "Invalid credentials"))
  | Some user =>
      isPasswordValid <- compare_password (l_password b) (password (fields user)) ;;
      if negb isPasswordValid then
        respond (mkResponse 400 (message_body "Invalid credentials"))
      else
        let token := jwt_sign (_id user) (email (fields user)) (secret env) (now env) in
        respond (mkResponse 200
                   (JObj [("message", JStr "Login successful");
                          ("token", JStr token);
                          ("user", profile user)]))
  end.

(** [.select('-password')]: the fetched document has no [password] path;
    the handler does not read it. *)
Definition select_no_password (d : option Doc) : option Doc :=
  match d with
  | Some d => Some (set_password "" d)
  | None => None
  end.

Definition me_handler `{P : Platform} (uid : string) : Handler Empty_set :=
  user <- findById uid ;;
  match select_no_password user with
  | None => respond (mkResponse 404 (message_body "User not found"))
  | Some user => respond (mkResponse 200 (JObj [("user", profile user)]))
  end.

(** [if (v) user.path = v] *)
Definition assign_truthy (v : option string) (f : string -> Doc -> Doc) (d : Doc) : Doc :=
  match v with
  | Some x => if truthy x then f x d else d
  | None => d
  end.

(** [if (v !== undefined) user.path = v] *)
Definition assign_defined (v : option string) (f : string -> Doc -> Doc) (d : Doc) : Doc :=
  match v with
  | Some x => f x d
  | None => d
  end.

(** [user.birthdate = v]: the string is cast to a date; a string that is
    not a date leaves the stored value and records a cast error. *)
Definition set_birthdate `{P : Platform} (v : string) (d : Doc) : Doc :=
  let u := fields d in
  match castDate v with
  | Some t =>
      mkDoc (_id d) (mkUser (name u) (email u) (password u) (phone u) (Some t) (createdAt u))
            (castError d)
  | None => mkDoc (_id d) u true
  end.

(** The four assignments of the basic information. *)
Definition assign_profile `{P : Platform} (b : UpdateBody) (user : Doc) : Doc :=
  let user := assign_truthy (u_name b) set_name user in
  let user := assign_truthy (u_email b) set_email user in
  let user := assign_defined (u_phone b) set_phone user in
  let user := assign_truthy (u_birthdate b) set_birthdate user in
  user.

Definition update_handler `{P : Platform} (env : Env) (uid : string) (b : UpdateBody)
  : Handler Empty_set :=
  user <- findById uid ;;
  match user with
  | None => respond (mkResponse 404 (message_body "User not found"))
  | Some user =>
      let user := assign_profile b user in
      user <- (if (truthy_opt (u_currentPassword b) && truthy_opt (u_newPassword b))%bool
               then
                 isPasswordValid <-
                   compare_password (u_currentPassword b) (password (fields user)) ;;
                 if negb isPasswordValid then
                   respond (mkResponse 400 (message_body "Current password is incorrect"))
                 else
                   hashedPassword <- hash_password env (u_newPassword b) ;;
                   ret (set_password hashedPassword user)
               else ret user) ;;
      save false user ;;;
      respond (mkResponse 200
                 (JObj [("message", JStr "User updated successfully");
                        ("user", profile user)]))
  end.

Definition progress_body (t : Z) : json :=
  JObj [("mentalHealthScore", JNum 75);
        ("assessmentsCompleted", JNum 3);
        ("lastAssessmentDate", JIso t);
        ("progressHistory",
          JArr [JObj [("date", JStr "2024-01-01"); ("score", JNum 65)];
                JObj [("date", JStr "2024-01-15"); ("score", JNum 70)];
                JObj [("date", JStr "2024-02-01"); ("score", JNum 75)]])].

(** [new Date()] reads the clock of the request. *)
Definition progress_handler (env : Env) : Handler Empty_set :=
  respond (mkResponse 200 (progress_body (now env))).

(** Each handler inside its [try/catch]; the protected ones receive the
    [req.userId] the middleware has set. *)
Definition register_route `{P : Platform} (env : Env) (b : RegisterBody) :=
  try_catch (register_handler env b).

Definition login_route `{P : Platform} (env : Env) (b : LoginBody) :=
  try_catch (login_handler env b).

Definition me_route `{P : Platform} (uid : string) := try_catch (me_handler uid).

Definition update_route `{P : Platform} (env : Env) (uid : string) (b : UpdateBody) :=
  try_catch (update_handler env uid b).

Definition progress_route (env : Env) := try_catch (progress_handler env).

(** The application: each route behind its middleware. *)
Definition serve `{P : Platform} (env : Env) (r : Request) : Store -> Response * Store :=
  match r with
  | PostRegister b => register_route env b
  | PostLogin b => login_route env b
  | GetMe a => authMiddleware env a me_route
  | PutUpdate a b => authMiddleware env a (fun uid => update_route env uid b)
  | GetProgress a => authMiddleware env a (fun _ => progress_route env)
  end.

(** The end of the update route once the document [d] is to be saved:
    the success response and the write, or the [catch] branch. *)
Definition update_saved (s : Store) (d : Doc) : Response * Store :=
  if accepts s d then
    (mkResponse 200 (JObj [("message", JStr "User updated successfully");
                           ("user", profile d)]),
     <[_id d := fields d]> s)
  else (mkResponse 500 (message_body "Server error"), s).

(** ** The store invariant *)

(** No two stored documents share an email. *)
Definition email_unique (s : Store) : Prop :=
  forall (i j : string) (u v : User),
    s !! i = Some u -> s !! j = Some v -> email u = email v -> i = j.

(** The same, as a test that evaluates. *)
Definition email_uniqueb (s : Store) : bool :=
  forallb (fun p => negb (email_taken (fst p) (email (snd p)) s)) (map_to_list s).

(** ** A small platform to run the handlers on

    Stand-ins for the libraries, simple enough to evaluate: a digest is
    the salt, a dollar sign and the plaintext; a token is the key and the
    payload fields joined by dots ([nbf] last, when there is one); a date
    is a decimal number of
    milliseconds; an [ObjectId] is twenty-four hexadecimal digits (the
    sample store uses short ids, which only matters for ids not stored). *)

Definition decimal (z : Z) : string := NilZero.string_of_int (Z.to_int z).

Definition of_decimal (s : string) : option Z :=
  match NilZero.int_of_string s with
  | Some i => Some (Z.of_int i)
  | None => None
  end.

Definition stub_hash (p sl : string) : string := sl ++ "$" ++ p.

Definition stub_compare (p digest : string) : bool :=
  match split "$"%char digest with
  | [_; q] => String.eqb p q
  | _ => false
  end.

Definition stub_sign (c : Claims) (key : string) : string :=
  key ++ "." ++ userId c ++ "." ++ claim_email c ++ "."
      ++ decimal (iat c) ++ "." ++ decimal (exp c)
      ++ match nbf c with
         | Some n => "." ++ decimal n
         | None => ""
         end.

Definition stub_verify (token key : string) : option Claims :=
  match split "."%char token with
  | [k; uid; em; i; x] =>
      if String.eqb k key then
        match of_decimal i, of_decimal x with
        | Some i, Some x => Some (mkClaims uid em i x None)
        | _, _ => None
        end
      else None
  | [k; uid; em; i; x; n] =>
      if String.eqb k key then
        match of_decimal i, of_decimal x, of_decimal n with
        | Some i, Some x, Some n => Some (mkClaims uid em i x (Some n))
        | _, _, _ => None
        end
      else None
  | _ => None
  end.

(** An [ObjectId] in text: twenty-four hexadecimal digits. *)
Definition is_hex (c : ascii) : bool :=
  (in_range 48 57 c || in_range 97 102 c || in_range 65 70 c)%bool.

Definition stub_object_id (i : string) : bool :=
  (Nat.eqb (String.length i) 24 && forallb is_hex (list_ascii_of_string i))%bool.

Definition stub : Platform :=
  {| bcrypt_hash := stub_hash;
     bcrypt_compare := stub_compare;
     jws_sign := stub_sign;
     jws_verify := stub_verify;
     castDate := of_decimal;
     castObjectId := stub_object_id |}.

(** ** Sample data *)

Definition alice : User := mkUser "A" "a@x" "salt$secret1" "" None 1000500.
Definition bob : User := mkUser "B" "b@x" "salt$hunter2" "" None 1000600.

(** Two registered users. *)
Definition two_users : Store := <["id1" := alice]> (<["id2" := bob]> ∅).

(** A request moment: no [JWT_SECRET] configured, the clock at 1000500 ms. *)
Definition sample_env : Env := mkEnv None 1000500 "id3" "salt".

(** The token [sample_env] issues to alice, in an [Authorization] header. *)
Definition alice_header : option string :=
  Some ("Bearer " ++ jwt_sign (P := stub) "id1" "a@x" (secret sample_env) (now sample_env)).

(** ** Predicates for the further properties *)

(** Every stored record passes the required validators. *)
Definition all_required (s : Store) : Prop :=
  forall (i : string) (u : User), s !! i = Some u -> required_ok u = true.

(** Does [c] occur in [s]? *)
Definition has_char (c : ascii) (s : string) : bool :=
  existsb (Ascii.eqb c) (list_ascii_of_string s).

(** The characters a percent-encoded text is made of. *)
Definition uri_safe (c : ascii) : bool := (unreserved c || Ascii.eqb c "%"%char)%bool.

(** An error payload: an object with the single member [message]. *)
Definition error_shaped (r : Response) : Prop :=
  exists msg : string, body r = message_body msg.

(** A registration body with every member present. *)
Definition carol_body : RegisterBody :=
  mkRegisterBody (Some "Carol") (Some "c@x") (Some "opensesame").

(** * Properties *)

(** ** The store *)

Lemma with_email_In (e : string) (s : Store) (i : string) (u : User) :
  In (i, u) (with_email e s) <-> s !! i = Some u /\ email u = e.
Proof.
  unfold with_email. rewrite filter_In, <- list_elem_of_In, elem_of_map_to_list.
  simpl. rewrite String.eqb_eq. reflexivity.
Qed.

Lemma find_by_email_Some (e : option string) (s : Store) (d : Doc) :
  find_by_email e s = Some d ->
  s !! _id d = Some (fields d) /\ e = Some (email (fields d)) /\ castError d = false.
Proof.
  destruct e as [e|]; simpl; [|discriminate].
  destruct (with_email e s) as [|[i u] l] eqn:E; [discriminate|].
  intros [= <-]. simpl.
  assert (In (i, u) (with_email e s)) as Hin by (rewrite E; left; reflexivity).
  apply with_email_In in Hin as [Hs He]. subst e. auto.
Qed.

Lemma find_by_email_None (e : string) (s : Store) :
  find_by_email (Some e) s = None <->
  forall (i : string) (u : User), s !! i = Some u -> email u <> e.
Proof.
  simpl. split.
  - destruct (with_email e s) as [|[i u] l] eqn:E; [|discriminate].
    intros _ i u Hs He.
    assert (In (i, u) (with_email e s)) as Hin by (apply with_email_In; auto).
    rewrite E in Hin. destruct Hin.
  - intros Hno. destruct (with_email e s) as [|[i u] l] eqn:E; [reflexivity|].
    assert (In (i, u) (with_email e s)) as Hin by (rewrite E; left; reflexivity).
    apply with_email_In in Hin as [Hs He]. destruct (Hno i u Hs He).
Qed.

Lemma email_taken_true (self e : string) (s : Store) :
  email_taken self e s = true <->
  exists (j : string) (v : User), s !! j = Some v /\ email v = e /\ j <> self.
Proof.
  unfold email_taken. rewrite existsb_exists. split.
  - intros [[j v] [Hin Hne]]. apply with_email_In in Hin as [Hs He].
    simpl in Hne. apply negb_true_iff, String.eqb_neq in Hne. eauto.
  - intros (j & v & Hs & He & Hne). exists (j, v). split.
    + apply with_email_In; auto.
    + simpl. apply negb_true_iff, String.eqb_neq. exact Hne.
Qed.

Lemma email_taken_false (self e : string) (s : Store) :
  email_taken self e s = false <->
  forall (j : string) (v : User), s !! j = Some v -> email v = e -> j = self.
Proof.
  split.
  - intros Hf j v Hs He. destruct (string_dec j self) as [|Hne]; [assumption|].
    assert (email_taken self e s = true) as Ht by (apply email_taken_true; eauto).
    congruence.
  - intros Hall. destruct (email_taken self e s) eqn:E; [|reflexivity].
    apply email_taken_true in E as (j & v & Hs & He & Hne).
    destruct (Hne (Hall j v Hs He)).
Qed.

(** What [save] can do: throw and leave the store, or write the document
    the store accepts. *)
Lemma save_cases (is_new : bool) (d : Doc) (s : Store) :
  save is_new d s = (Thrown, s) \/
  accepts s d = true /\ save is_new d s = (Value tt, <[_id d := fields d]> s).
Proof.
  unfold save. destruct (accepts s d); simpl; [|auto].
  destruct is_new; [|auto]. destruct (s !! _id d); auto.
Qed.

Lemma accepts_email_free (s : Store) (d : Doc) :
  accepts s d = true ->
  forall (j : string) (v : User),
    s !! j = Some v -> email v = email (fields d) -> j = _id d.
Proof.
  unfold accepts. intros Ha. apply andb_true_iff in Ha as [_ Ha].
  apply negb_true_iff in Ha. apply email_taken_false. exact Ha.
Qed.

Lemma insert_email_unique (s : Store) (d : Doc) :
  accepts s d = true -> email_unique s ->
  email_unique (<[_id d := fields d]> s).
Proof.
  intros Ha Hu i j u v Hi Hj He.
  pose proof (accepts_email_free s d Ha) as Hfree.
  destruct (string_dec i (_id d)) as [->|Hi'], (string_dec j (_id d)) as [->|Hj'].
  - reflexivity.
  - rewrite lookup_insert_eq in Hi. rewrite lookup_insert_ne in Hj by congruence.
    injection Hi as <-. symmetry. apply (Hfree j v Hj). congruence.
  - rewrite lookup_insert_eq in Hj. rewrite lookup_insert_ne in Hi by congruence.
    injection Hj as <-. apply (Hfree i u Hi). congruence.
  - rewrite lookup_insert_ne in Hi by congruence.
    rewrite lookup_insert_ne in Hj by congruence.
    exact (Hu i j u v Hi Hj He).
Qed.

(** ** The update route, evaluated *)

Section Update.
Context `{P : Platform}.
Variables (env : Env) (uid : string) (b : UpdateBody) (s : Store) (u : User).
Hypothesis stored : s !! uid = Some u.

Lemma assign_profile_id (d : Doc) : _id (assign_profile b d) = _id d.
Proof.
  unfold assign_profile, assign_truthy, assign_defined, set_birthdate.
  repeat case_match; reflexivity.
Qed.

Lemma assign_profile_password (d : Doc) :
  password (fields (assign_profile b d)) = password (fields d).
Proof.
  unfold assign_profile, assign_truthy, assign_defined, set_birthdate.
  repeat case_match; reflexivity.
Qed.

Lemma assign_profile_createdAt (d : Doc) :
  createdAt (fields (assign_profile b d)) = createdAt (fields d).
Proof.
  unfold assign_profile, assign_truthy, assign_defined, set_birthdate.
  repeat case_match; reflexivity.
Qed.

(** No password change is asked for: the profile assignments are saved. *)
Lemma update_route_plain :
  (truthy_opt (u_currentPassword b) && truthy_opt (u_newPassword b))%bool = false ->
  update_route env uid b s = update_saved s (assign_profile b (mkDoc uid u false)).
Proof.
  intros Hg. unfold update_route, update_handler, try_catch, bind at 1, findById.
  rewrite stored. rewrite Hg.
  unfold bind, ret, save, respond, update_saved.
  destruct (accepts s _); reflexivity.
Qed.

(** A password change is asked for and the current password is wrong. *)
Lemma update_route_mismatch (cur new : string) :
  u_currentPassword b = Some cur -> u_newPassword b = Some new ->
  cur <> "" -> new <> "" ->
  bcrypt_compare cur (password u) = false ->
  update_route env uid b s =
  (mkResponse 400 (message_body "Current password is incorrect"), s).
Proof.
  intros Hc Hn Hc' Hn' Hcmp.
  unfold update_route, update_handler, try_catch, bind at 1, findById.
  rewrite stored. rewrite Hc, Hn. simpl.
  unfold truthy. apply String.eqb_neq in Hc', Hn'. rewrite Hc', Hn'. simpl.
  unfold bind, ret, respond. rewrite assign_profile_password. simpl.
  rewrite Hcmp. reflexivity.
Qed.

(** A password change is asked for and the current password verifies. *)
Lemma update_route_match (cur new : string) :
  u_currentPassword b = Some cur -> u_newPassword b = Some new ->
  cur <> "" -> new <> "" ->
  bcrypt_compare cur (password u) = true ->
  update_route env uid b s =
  update_saved s (set_password (bcrypt_hash new (salt env))
                      (assign_profile b (mkDoc uid u false))).
Proof.
  intros Hc Hn Hc' Hn' Hcmp.
  unfold update_route, update_handler, try_catch, bind at 1, findById.
  rewrite stored. rewrite Hc, Hn. simpl.
  unfold truthy. apply String.eqb_neq in Hc', Hn'. rewrite Hc', Hn'. simpl.
  unfold bind, ret, respond, save, update_saved.
  rewrite assign_profile_password. simpl.
  rewrite Hcmp. simpl.
  destruct (accepts s _); reflexivity.
Qed.
End Update.

Lemma assign_profile_frame `{P : Platform} (b : UpdateBody) (d : Doc) :
  let u := fields d in
  let u' := fields (assign_profile b d) in
  (name u' = name u \/ u_name b = Some (name u')) /\
  (email u' = email u \/ u_email b = Some (email u')) /\
  (phone u' = phone u \/ u_phone b = Some (phone u')) /\
  (birthdate u' = birthdate u \/
   exists (v : string) (t : Z),
     u_birthdate b = Some v /\ castDate v = Some t /\ birthdate u' = Some t).
Proof.
  unfold assign_profile, assign_truthy, assign_defined, set_birthdate.
  destruct b as [n e p bd c w]; simpl.
  destruct n as [n|], e as [e|], p as [p|], bd as [bd|]; simpl;
    repeat match goal with
           | |- context [truthy ?x] => destruct (truthy x); simpl
           | |- context [castDate ?x] => destruct (castDate x) eqn:?; simpl
           end;
    repeat split; eauto 10.
Qed.

(** ** Password change and the failed-verification path *)

(** C3 (first half fails on an empty member, second half when the save is
    refused): a request whose [newPassword] is the empty string is not
    answered 400 although its [currentPassword] does not verify; and a
    request whose [currentPassword] verifies but whose new email belongs
    to another record is answered 500 with the stored digest kept. *)
Lemma C3_counterexample :
  (let b := mkUpdateBody None None None None (Some "wrong") (Some "") in
   two_users !! "id1" = Some alice /\
   u_currentPassword b = Some "wrong" /\ u_newPassword b = Some "" /\
   bcrypt_compare (Platform := stub) "wrong" (password alice) = false /\
   status (fst (serve (P := stub) sample_env (PutUpdate alice_header b) two_users)) = 200)
  /\
  (let b := mkUpdateBody None (Some "b@x") None None (Some "secret1") (Some "fresh") in
   two_users !! "id1" = Some alice /\
   u_currentPassword b = Some "secret1" /\ u_newPassword b = Some "fresh" /\
   bcrypt_compare (Platform := stub) "secret1" (password alice) = true /\
   serve (P := stub) sample_env (PutUpdate alice_header b) two_users
   = (mkResponse 500 (message_body "Server error"), two_users) /\
   password alice <> bcrypt_hash (Platform := stub) "fresh" (salt sample_env)).
Proof.
  split; cbv zeta; repeat split; try (vm_compute; reflexivity).
  vm_compute. discriminate.
Qed.

(** C3, as the handler has it: for an update of an existing user that
    carries both [currentPassword] and [newPassword] as non-empty strings,
    a current password that does not verify is answered 400 "Current
    password is incorrect" and the stored digest stays; one that verifies
    makes the stored digest the hash of the new password when the store
    accepts the updated document (it validates and its email belongs to
    no other record), and otherwise the answer is 500 and the store is
    unchanged.  (Nothing is said of the answer that follows an accepted
    save.) *)
Theorem C3_password_change `{P : Platform} (env : Env) (uid : string) (b : UpdateBody)
    (s : Store) (u : User) (cur new : string) :
  s !! uid = Some u ->
  u_currentPassword b = Some cur -> u_newPassword b = Some new ->
  cur <> "" -> new <> "" ->
  (bcrypt_compare cur (password u) = false ->
   fst (update_route env uid b s)
   = mkResponse 400 (message_body "Current password is incorrect") /\
   password <$> (snd (update_route env uid b s) !! uid) = Some (password u))
  /\
  (bcrypt_compare cur (password u) = true ->
   let d := set_password (bcrypt_hash new (salt env))
                         (assign_profile b (mkDoc uid u false)) in
   (accepts s d = true ->
    password <$> (snd (update_route env uid b s) !! uid)
    = Some (bcrypt_hash new (salt env))) /\
   (accepts s d = false ->
    update_route env uid b s = (mkResponse 500 (message_body "Server error"), s))).
Proof.
  intros Hs Hc Hn Hc' Hn'. split; intros Hcmp.
  - rewrite (update_route_mismatch env uid b s u Hs cur new) by assumption.
    simpl. rewrite Hs. auto.
  - rewrite (update_route_match env uid b s u Hs cur new) by assumption.
    cbv zeta. unfold update_saved. split; intros ->.
    + simpl. rewrite assign_profile_id. simpl. rewrite lookup_insert_eq. reflexivity.
    + reflexivity.
Qed.

Lemma C3_password_change_witness :
  let b := mkUpdateBody (Some "Al") None None None (Some "secret1") (Some "fresh") in
  password <$> (snd (update_route (P := stub) sample_env "id1" b two_users) !! "id1")
  = Some "salt$fresh".
Proof.
  cbv zeta.
  refine (proj1 (proj2 (C3_password_change (P := stub) sample_env "id1"
            (mkUpdateBody (Some "Al") None None None (Some "secret1") (Some "fresh"))
            two_users alice "secret1" "fresh" _ _ _ _ _) _) _);
    try (vm_compute; reflexivity); discriminate.
Defined.

(** C10 (fails on an empty member): with a wrong [currentPassword] and an
    empty [newPassword] the password branch is skipped, the new name is
    saved and the answer is 200. *)
Lemma C10_counterexample :
  let b := mkUpdateBody (Some "Mallory") None None None (Some "wrong") (Some "") in
  two_users !! "id1" = Some alice /\
  u_currentPassword b = Some "wrong" /\ u_newPassword b = Some "" /\
  bcrypt_compare (Platform := stub) "wrong" (password alice) = false /\
  status (fst (serve (P := stub) sample_env (PutUpdate alice_header b) two_users)) = 200 /\
  snd (serve (P := stub) sample_env (PutUpdate alice_header b) two_users) !! "id1"
  = Some (mkUser "Mallory" "a@x" "salt$secret1" "" None 1000500).
Proof.
  cbv zeta; repeat split; vm_compute; reflexivity.
Qed.

(** C10, as the handler has it: when an update of an existing user carries
    both [currentPassword] and [newPassword] as non-empty strings and the
    current password does not verify, the answer is 400 and the whole
    store is as before: no supplied name, email, phone or birthdate is
    written. *)
Theorem C10_mismatch_discards_update `{P : Platform} (env : Env) (uid : string)
    (b : UpdateBody) (s : Store) (u : User) (cur new : string) :
  s !! uid = Some u ->
  u_currentPassword b = Some cur -> u_newPassword b = Some new ->
  cur <> "" -> new <> "" ->
  bcrypt_compare cur (password u) = false ->
  update_route env uid b s
  = (mkResponse 400 (message_body "Current password is incorrect"), s)
  /\ snd (update_route env uid b s) !! uid = Some u.
Proof.
  intros Hs Hc Hn Hc' Hn' Hcmp.
  rewrite (update_route_mismatch env uid b s u Hs cur new) by assumption.
  split; [reflexivity | exact Hs].
Qed.

Lemma C10_mismatch_discards_update_witness :
  let b := mkUpdateBody (Some "Mallory") (Some "m@x") (Some "555") (Some "12")
                        (Some "wrong") (Some "fresh") in
  update_route (P := stub) sample_env "id1" b two_users
  = (mkResponse 400 (message_body "Current password is incorrect"), two_users)
  /\ snd (update_route (P := stub) sample_env "id1" b two_users) !! "id1" = Some alice.
Proof.
  cbv zeta.
  refine (C10_mismatch_discards_update (P := stub) sample_env "id1"
            (mkUpdateBody (Some "Mallory") (Some "m@x") (Some "555") (Some "12")
                          (Some "wrong") (Some "fresh"))
            two_users alice "wrong" "fresh" _ _ _ _ _ _);
    try (vm_compute; reflexivity); discriminate.
Defined.

(** ** The frame of an update *)

Lemma truthy_opt_Some (o : option string) :
  truthy_opt o = true -> exists x : string, o = Some x /\ x <> "".
Proof.
  destruct o as [x|]; simpl; [|discriminate].
  unfold truthy. intros Ht. apply negb_true_iff, String.eqb_neq in Ht. eauto.
Qed.

(** C8: an update of an existing user leaves every other record as it
    was and keeps the record under its id; [createdAt] is kept; each of
    name, email, phone and birthdate that the request omits is kept, and
    one that differs afterwards holds the value the request supplied; the
    digest is kept unless both passwords were supplied, the current one
    verified, and then it is the hash of the new one. *)
Theorem C8_update_frame `{P : Platform} (env : Env) (uid : string) (b : UpdateBody)
    (s : Store) (u : User) :
  s !! uid = Some u ->
  exists u' : User,
    snd (update_route env uid b s) = <[uid := u']> s /\
    createdAt u' = createdAt u /\
    (u_name b = None -> name u' = name u) /\
    (u_email b = None -> email u' = email u) /\
    (u_phone b = None -> phone u' = phone u) /\
    (u_birthdate b = None -> birthdate u' = birthdate u) /\
    (name u' = name u \/ u_name b = Some (name u')) /\
    (email u' = email u \/ u_email b = Some (email u')) /\
    (phone u' = phone u \/ u_phone b = Some (phone u')) /\
    (birthdate u' = birthdate u \/
     exists (v : string) (t : Z),
       u_birthdate b = Some v /\ castDate v = Some t /\ birthdate u' = Some t) /\
    (password u' = password u \/
     exists cur new : string,
       u_currentPassword b = Some cur /\ u_newPassword b = Some new /\
       bcrypt_compare cur (password u) = true /\
       password u' = bcrypt_hash new (salt env)).
Proof.
  intros Hs.
  pose proof (assign_profile_frame b (mkDoc uid u false)) as Hfr.
  pose proof (assign_profile_id b (mkDoc uid u false)) as Hid.
  pose proof (assign_profile_createdAt b (mkDoc uid u false)) as Hcr.
  pose proof (assign_profile_password b (mkDoc uid u false)) as Hpw.
  cbv zeta in Hfr. simpl in Hfr, Hid, Hcr, Hpw.
  destruct Hfr as (Hn & He & Hp & Hb).
  assert (forall (A : Type) (x y : A) (o : option A),
             x = y \/ o = Some x -> o = None -> x = y) as Hkeep.
  { intros A x y o [E|E] Hnone; [exact E | congruence]. }
  assert (u_birthdate b = None ->
          birthdate (fields (assign_profile b (mkDoc uid u false))) = birthdate u)
    as Hbkeep.
  { intros Hnone. destruct Hb as [E|(v & t & E & _)]; [exact E | congruence]. }
  assert (forall r : Response,
             exists u' : User,
               snd (r, s) = <[uid := u']> s /\
               createdAt u' = createdAt u /\
               (u_name b = None -> name u' = name u) /\
               (u_email b = None -> email u' = email u) /\
               (u_phone b = None -> phone u' = phone u) /\
               (u_birthdate b = None -> birthdate u' = birthdate u) /\
               (name u' = name u \/ u_name b = Some (name u')) /\
               (email u' = email u \/ u_email b = Some (email u')) /\
               (phone u' = phone u \/ u_phone b = Some (phone u')) /\
               (birthdate u' = birthdate u \/
                exists (v : string) (t : Z),
                  u_birthdate b = Some v /\ castDate v = Some t /\
                  birthdate u' = Some t) /\
               (password u' = password u \/
                exists cur new : string,
                  u_currentPassword b = Some cur /\ u_newPassword b = Some new /\
                  bcrypt_compare cur (password u) = true /\
                  password u' = bcrypt_hash new (salt env))) as Hsame.
  { intros r. exists u. simpl. rewrite (insert_id _ _ _ Hs). repeat split; auto. }
  destruct (truthy_opt (u_currentPassword b) && truthy_opt (u_newPassword b))%bool
    eqn:G.
  - apply andb_true_iff in G as [Gc Gn].
    apply truthy_opt_Some in Gc as (cur & Hc & Hc').
    apply truthy_opt_Some in Gn as (new & Hw & Hw').
    destruct (bcrypt_compare cur (password u)) eqn:Hcmp.
    + rewrite (update_route_match env uid b s u Hs cur new) by assumption.
      unfold update_saved. destruct (accepts s _); [|apply Hsame].
      exists (fields (set_password (bcrypt_hash new (salt env))
                        (assign_profile b (mkDoc uid u false)))).
      simpl. rewrite Hid.
      repeat split; eauto.
      right. exists cur, new. auto.
    + rewrite (update_route_mismatch env uid b s u Hs cur new) by assumption.
      apply Hsame.
  - rewrite (update_route_plain env uid b s u Hs G).
    unfold update_saved. destruct (accepts s _); [|apply Hsame].
    exists (fields (assign_profile b (mkDoc uid u false))).
    simpl. rewrite Hid.
    repeat split; eauto.
Qed.

Lemma C8_update_frame_witness :
  exists u' : User,
    snd (update_route (P := stub) sample_env "id1"
           (mkUpdateBody (Some "Al") None None (Some "86400000") None None) two_users)
    = <["id1" := u']> two_users /\
    createdAt u' = createdAt alice /\ email u' = email alice.
Proof.
  destruct (C8_update_frame (P := stub) sample_env "id1"
              (mkUpdateBody (Some "Al") None None (Some "86400000") None None)
              two_users alice)
    as (u' & Hs & Hc & _ & He & _).
  - vm_compute. reflexivity.
  - exists u'. repeat split; [exact Hs | exact Hc | apply He; reflexivity].
Defined.

(** ** Login *)

Lemma login_route_unknown `{P : Platform} (env : Env) (b : LoginBody) (s : Store) :
  find_by_email (l_email b) s = None ->
  login_route env b s = (mkResponse 400 (message_body "Invalid credentials"), s).
Proof.
  intros Hf. unfold login_route, login_handler, try_catch, bind, findOne.
  rewrite Hf. reflexivity.
Qed.

(** C2: a login whose email belongs to no stored user, and a login whose
    email resolves to a user while the supplied password does not verify
    against that user's digest, get the same answer: status 400 with the
    message "Invalid credentials" (and the store is left as it was). *)
Theorem C2_login_failures_alike `{P : Platform} (env : Env) (b : LoginBody) (s : Store) :
  ((forall (i : string) (u : User), s !! i = Some u -> l_email b <> Some (email u)) ->
   login_route env b s = (mkResponse 400 (message_body "Invalid credentials"), s))
  /\
  (forall (d : Doc) (p : string),
      find_by_email (l_email b) s = Some d ->
      l_password b = Some p ->
      bcrypt_compare p (password (fields d)) = false ->
      login_route env b s = (mkResponse 400 (message_body "Invalid credentials"), s)).
Proof.
  split.
  - intros Hno. apply login_route_unknown.
    destruct (l_email b) as [e|] eqn:E; [|reflexivity].
    apply find_by_email_None. intros i u Hs He. apply (Hno i u Hs). congruence.
  - intros d p Hf Hp Hcmp.
    unfold login_route, login_handler, try_catch, bind, findOne.
    rewrite Hf, Hp. simpl. unfold bind, ret. rewrite Hcmp. reflexivity.
Qed.

Lemma C2_login_failures_alike_witness :
  login_route (P := stub) sample_env (mkLoginBody (Some "nobody@x") (Some "secret1"))
    two_users
  = (mkResponse 400 (message_body "Invalid credentials"), two_users)
  /\
  login_route (P := stub) sample_env (mkLoginBody (Some "a@x") (Some "guess")) two_users
  = (mkResponse 400 (message_body "Invalid credentials"), two_users).
Proof.
  split.
  - apply (proj1 (C2_login_failures_alike (P := stub) sample_env
                    (mkLoginBody (Some "nobody@x") (Some "secret1")) two_users)).
    intros i u Hs. simpl. intros [= He].
    assert (find_by_email (Some "nobody@x") two_users = None) as Hn
        by (vm_compute; reflexivity).
    exact (proj1 (find_by_email_None "nobody@x" two_users) Hn i u Hs (eq_sym He)).
  - apply (proj2 (C2_login_failures_alike (P := stub) sample_env
                    (mkLoginBody (Some "a@x") (Some "guess")) two_users)
             (mkDoc "id1" alice false) "guess"); vm_compute; reflexivity.
Defined.

(** ** Registration and the uniqueness of emails *)

Lemma only_element {A : Type} (a : A) (l : list A) :
  NoDup l -> In a l -> (forall x : A, In x l -> x = a) -> l = [a].
Proof.
  intros Hnd Hin Hall. destruct l as [|x l]; [destruct Hin|].
  assert (x = a) as -> by (apply Hall; left; reflexivity).
  destruct l as [|y l]; [reflexivity|].
  assert (y = a) as -> by (apply Hall; right; left; reflexivity).
  apply NoDup_cons in Hnd as [Hnot _]. destruct Hnot.
  apply list_elem_of_In. left. reflexivity.
Qed.

Lemma with_email_unique (s : Store) (i : string) (u : User) :
  email_unique s -> s !! i = Some u -> with_email (email u) s = [(i, u)].
Proof.
  intros Hu Hs. apply only_element.
  - unfold with_email. apply NoDup_ListNoDup, List.NoDup_filter, NoDup_ListNoDup.
    apply NoDup_map_to_list.
  - apply with_email_In. auto.
  - intros [j v] Hin. apply with_email_In in Hin as [Hj He].
    assert (j = i) as -> by exact (Hu j i v u Hj Hs He).
    congruence.
Qed.

Lemma register_route_taken `{P : Platform} (env : Env) (b : RegisterBody) (s : Store)
    (i : string) (u : User) :
  s !! i = Some u -> r_email b = Some (email u) ->
  register_route env b s = (mkResponse 400 (message_body "User already exists"), s).
Proof.
  intros Hs He. unfold register_route, register_handler, try_catch, bind, findOne.
  destruct (find_by_email (r_email b) s) as [d|] eqn:Hf; [reflexivity|].
  rewrite He in Hf. pose proof (proj1 (find_by_email_None _ _) Hf i u Hs) as Hne.
  destruct (Hne eq_refl).
Qed.

(** C4: when the store holds a record with email [e], a register request
    for [e] is answered 400 "User already exists" and the store is left
    exactly as it was; in a store with unique emails the records with
    email [e] are then still that single, unmodified record. *)
Theorem C4_register_duplicate `{P : Platform} (env : Env) (b : RegisterBody) (s : Store)
    (e : string) (i : string) (u : User) :
  s !! i = Some u -> email u = e -> r_email b = Some e ->
  register_route env b s = (mkResponse 400 (message_body "User already exists"), s)
  /\ (email_unique s -> with_email e (snd (register_route env b s)) = [(i, u)]).
Proof.
  intros Hs He Hb. subst e.
  rewrite (register_route_taken env b s i u Hs Hb). split; [reflexivity|].
  intros Hu. simpl. apply with_email_unique; assumption.
Qed.

Lemma email_uniqueb_sound (s : Store) : email_uniqueb s = true -> email_unique s.
Proof.
  unfold email_uniqueb. rewrite forallb_forall. intros Hall i j u v Hi Hj He.
  assert (In (i, u) (map_to_list s)) as Hin
      by (apply list_elem_of_In, elem_of_map_to_list; exact Hi).
  apply Hall in Hin. simpl in Hin. apply negb_true_iff in Hin.
  symmetry. exact (proj1 (email_taken_false i (email u) s) Hin j v Hj (eq_sym He)).
Qed.

Lemma C4_register_duplicate_witness :
  register_route (P := stub) sample_env
    (mkRegisterBody (Some "Eve") (Some "a@x") (Some "pw")) two_users
  = (mkResponse 400 (message_body "User already exists"), two_users)
  /\ with_email "a@x"
       (snd (register_route (P := stub) sample_env
               (mkRegisterBody (Some "Eve") (Some "a@x") (Some "pw")) two_users))
     = [("id1", alice)].
Proof.
  destruct (C4_register_duplicate (P := stub) sample_env
              (mkRegisterBody (Some "Eve") (Some "a@x") (Some "pw")) two_users
              "a@x" "id1" alice) as [Hr Hone]; try (vm_compute; reflexivity).
  split; [exact Hr|]. apply Hone, email_uniqueb_sound. vm_compute. reflexivity.
Defined.

(** ** What the routes do to the store *)

(** The answer for an id that is not stored: 404, or the 500 of the
    [catch] when the id is no [ObjectId]. *)
Lemma update_route_absent `{P : Platform} (env : Env) (uid : string) (b : UpdateBody)
    (s : Store) :
  s !! uid = None ->
  update_route env uid b s
  = (if castObjectId uid then mkResponse 404 (message_body "User not found")
     else mkResponse 500 (message_body "Server error"), s).
Proof.
  intros Hs. unfold update_route, update_handler, try_catch, bind, findById.
  rewrite Hs. destruct (castObjectId uid); reflexivity.
Qed.


Lemma update_route_cases `{P : Platform} (env : Env) (uid : string) (b : UpdateBody)
    (s : Store) :
  (update_route env uid b s = (mkResponse 404 (message_body "User not found"), s) \/
   update_route env uid b s = (mkResponse 500 (message_body "Server error"), s)) \/
  update_route env uid b s
  = (mkResponse 400 (message_body "Current password is incorrect"), s) \/
  exists d : Doc, update_route env uid b s = update_saved s d.
Proof.
  destruct (s !! uid) as [u|] eqn:Hs.
  - right.
    destruct (truthy_opt (u_currentPassword b) && truthy_opt (u_newPassword b))%bool
      eqn:G.
    + apply andb_true_iff in G as [Gc Gn].
      apply truthy_opt_Some in Gc as (cur & Hc & Hc').
      apply truthy_opt_Some in Gn as (new & Hw & Hw').
      destruct (bcrypt_compare cur (password u)) eqn:Hcmp.
      * right. eexists. apply (update_route_match env uid b s u Hs cur new); assumption.
      * left. apply (update_route_mismatch env uid b s u Hs cur new); assumption.
    + right. eexists. apply (update_route_plain env uid b s u Hs G).
  - left. rewrite (update_route_absent env uid b s Hs).
    destruct (castObjectId uid); auto.
Qed.

Lemma update_saved_store (s : Store) (d : Doc) :
  snd (update_saved s d) = s \/
  accepts s d = true /\ snd (update_saved s d) = <[_id d := fields d]> s.
Proof. unfold update_saved. destruct (accepts s d); auto. Qed.

Lemma register_route_cases `{P : Platform} (env : Env) (b : RegisterBody) (s : Store) :
  snd (register_route env b s) = s \/
  exists d : Doc,
    accepts s d = true /\ snd (register_route env b s) = <[_id d := fields d]> s.
Proof.
  destruct (register_route env b s) as [r s'] eqn:E. simpl. revert E.
  unfold register_route, register_handler, try_catch, bind at 1, findOne.
  destruct (find_by_email (r_email b) s); [intros [= _ <-]; auto|].
  unfold bind at 1, hash_password.
  destruct (r_password b) as [p|]; [|intros [= _ <-]; auto].
  unfold ret, bind.
  destruct (save_cases true (new_User env (r_name b) (r_email b)
                               (bcrypt_hash p (salt env))) s) as [E|[Ha E]];
    rewrite E; unfold respond; intros [= _ <-]; eauto.
Qed.

Lemma login_route_store `{P : Platform} (env : Env) (b : LoginBody) (s : Store) :
  snd (login_route env b s) = s.
Proof.
  unfold login_route, login_handler, try_catch, bind at 1, findOne.
  destruct (find_by_email (l_email b) s); [|reflexivity].
  unfold bind, compare_password, ret, throw.
  destruct (l_password b); [|reflexivity].
  destruct (bcrypt_compare _ _); reflexivity.
Qed.

Lemma me_route_store `{P : Platform} (uid : string) (s : Store) :
  snd (me_route uid s) = s.
Proof.
  unfold me_route, me_handler, try_catch, bind, findById.
  destruct (s !! uid); [reflexivity|]. destruct (castObjectId uid); reflexivity.
Qed.

(** The middleware answers by itself, leaving the store, or hands over
    to the rest of the route. *)
Lemma authMiddleware_cases `{P : Platform} (env : Env) (a : option string)
    (next : string -> Store -> Response * Store) (s : Store) :
  authMiddleware env a next s = (mkResponse 401 (message_body "No token provided"), s) \/
  authMiddleware env a next s = (mkResponse 401 (message_body "Invalid token"), s) \/
  exists uid : string, authMiddleware env a next s = next uid s.
Proof.
  unfold authMiddleware. destruct (bearer a) as [t|]; [|auto].
  destruct (truthy t); [|auto].
  destruct (jwt_verify t (secret env) (now env)); eauto.
Qed.

Lemma serve_store `{P : Platform} (env : Env) (r : Request) (s : Store) :
  snd (serve env r s) = s \/
  exists d : Doc,
    accepts s d = true /\ snd (serve env r s) = <[_id d := fields d]> s.
Proof.
  destruct r as [b|b|a|a b|a]; simpl.
  - apply register_route_cases.
  - left. apply login_route_store.
  - destruct (authMiddleware_cases env a me_route s) as [E|[E|[uid E]]];
      rewrite E; auto. left. apply me_route_store.
  - destruct (authMiddleware_cases env a (fun uid => update_route env uid b) s)
      as [E|[E|[uid E]]]; rewrite E; auto.
    destruct (update_route_cases env uid b s) as [[E'|E']|[E'|[d E']]];
      rewrite E'; auto.
    destruct (update_saved_store s d) as [?|[? ?]]; eauto.
  - destruct (authMiddleware_cases env a (fun _ => progress_route env) s)
      as [E|[E|[uid E]]]; rewrite E; auto.
Qed.

(** C5: email uniqueness is an invariant of the store: whatever the
    request (register, login, get current user, update user, progress),
    a store in which no two records share an email is taken to such a
    store.  In particular a save, of a new or of an updated document,
    whose email belongs to another record throws and writes nothing. *)
Theorem C5_email_unique_invariant `{P : Platform} (env : Env) (r : Request) (s : Store) :
  email_unique s ->
  email_unique (snd (serve env r s)) /\
  (forall (is_new : bool) (d : Doc) (j : string) (v : User),
      s !! j = Some v -> j <> _id d -> email v = email (fields d) ->
      save is_new d s = (Thrown, s)).
Proof.
  intros Hu. split.
  - destruct (serve_store env r s) as [E|(d & Ha & E)]; rewrite E.
    + exact Hu.
    + apply insert_email_unique; assumption.
  - intros is_new d j v Hj Hne He. unfold save, accepts.
    assert (email_taken (_id d) (email (fields d)) s = true) as ->
        by (apply email_taken_true; eauto).
    rewrite andb_false_r. reflexivity.
Qed.

Lemma C5_email_unique_invariant_witness :
  email_unique
    (snd (serve (P := stub) sample_env
            (PutUpdate alice_header
               (mkUpdateBody None (Some "b@x") None None None None)) two_users))
  /\ snd (serve (P := stub) sample_env
            (PutUpdate alice_header
               (mkUpdateBody None (Some "b@x") None None None None)) two_users)
     = two_users.
Proof.
  split.
  - apply (C5_email_unique_invariant (P := stub) sample_env
             (PutUpdate alice_header
                (mkUpdateBody None (Some "b@x") None None None None)) two_users).
    apply email_uniqueb_sound. vm_compute. reflexivity.
  - vm_compute. reflexivity.
Defined.

(** ** The middleware as a gate *)

Lemma truthy_true (t : string) : t <> "" -> truthy t = true.
Proof. intros Hne. unfold truthy. apply negb_true_iff, String.eqb_neq. exact Hne. Qed.

(** C7: on a protected route, a request without an [Authorization]
    header, or whose header yields no token, and a request whose token
    does not verify (bad signature or expired) are answered 401 with the
    store untouched, whatever the handler behind the middleware is: it is
    not run.  A request whose token verifies is handed to the handler with
    the token's [userId], and these are the only requests that reach it. *)
Theorem C7_auth_gate `{P : Platform} (env : Env) (a : option string) (s : Store) :
  bearer None = None /\
  ((bearer a = None \/ bearer a = Some "") ->
   forall next : string -> Store -> Response * Store,
     authMiddleware env a next s
     = (mkResponse 401 (message_body "No token provided"), s)) /\
  (forall t : string,
      bearer a = Some t -> t <> "" ->
      jwt_verify t (secret env) (now env) = None ->
      forall next : string -> Store -> Response * Store,
        authMiddleware env a next s
        = (mkResponse 401 (message_body "Invalid token"), s)) /\
  (forall (t : string) (d : Claims),
      bearer a = Some t -> t <> "" ->
      jwt_verify t (secret env) (now env) = Some d ->
      forall next : string -> Store -> Response * Store,
        authMiddleware env a next s = next (userId d) s) /\
  ((exists (t : string) (d : Claims),
       bearer a = Some t /\ t <> "" /\
       jwt_verify t (secret env) (now env) = Some d) \/
   (forall next : string -> Store -> Response * Store,
       status (fst (authMiddleware env a next s)) = 401 /\
       snd (authMiddleware env a next s) = s)).
Proof.
  split; [reflexivity|]. split; [|split; [|split]].
  - intros [E|E] next; unfold authMiddleware; rewrite E; reflexivity.
  - intros t E Hne Hv next. unfold authMiddleware.
    rewrite E, (truthy_true t Hne), Hv. reflexivity.
  - intros t d E Hne Hv next. unfold authMiddleware.
    rewrite E, (truthy_true t Hne), Hv. reflexivity.
  - unfold authMiddleware. destruct (bearer a) as [t|]; [|right; auto].
    destruct (truthy t) eqn:Ht; [|right; auto].
    destruct (jwt_verify t (secret env) (now env)) as [d|] eqn:Hv; [|right; auto].
    left. exists t, d. split; [reflexivity|]. split; [|exact Hv].
    intros ->. discriminate.
Qed.

Lemma C7_auth_gate_witness :
  (forall next : string -> Store -> Response * Store,
      authMiddleware (P := stub) sample_env (Some "Bearer") next two_users
      = (mkResponse 401 (message_body "No token provided"), two_users)) /\
  (forall next : string -> Store -> Response * Store,
      authMiddleware (P := stub) sample_env (Some "Bearer forged.id1.a@x.1000.605800")
        next two_users
      = (mkResponse 401 (message_body "Invalid token"), two_users)) /\
  (forall next : string -> Store -> Response * Store,
      authMiddleware (P := stub) sample_env alice_header next two_users
      = next "id1" two_users).
Proof.
  split; [|split].
  - apply (proj1 (proj2 (C7_auth_gate (P := stub) sample_env (Some "Bearer") two_users))).
    left. reflexivity.
  - apply (proj1 (proj2 (proj2 (C7_auth_gate (P := stub) sample_env
                                  (Some "Bearer forged.id1.a@x.1000.605800") two_users)))
             "forged.id1.a@x.1000.605800");
      [reflexivity | discriminate | vm_compute; reflexivity].
  - apply (proj1 (proj2 (proj2 (proj2 (C7_auth_gate (P := stub) sample_env
                                         alice_header two_users))))
             "your-secret-key.id1.a@x.1000.605800"
             (mkClaims "id1" "a@x" 1000 605800 None));
      [vm_compute; reflexivity | discriminate | vm_compute; reflexivity].
Defined.

(** ** The lifetime of a token *)

Lemma secret_same (e1 e2 : Env) : JWT_SECRET e1 = JWT_SECRET e2 -> secret e1 = secret e2.
Proof. unfold secret. intros ->. reflexivity. Qed.

(** C6: the token issued for a user id and an email at the moment [issue]
    carries those two claims, the second of issuance as [iat] and an
    expiry [exp] exactly seven days later; verified under the same
    [JWT_SECRET] setting, it yields that payload at every instant before
    the expiry and is refused at the expiry and at every instant after.
    The signature scheme is assumed to open what it signed. *)
Theorem C6_token_lifetime `{P : Platform} (issue verify : Env) (uid em : string) :
  let c := mkClaims uid em (now issue / 1000) (now issue / 1000 + 7 * 24 * 60 * 60)
                    None in
  let token := jwt_sign uid em (secret issue) (now issue) in
  JWT_SECRET verify = JWT_SECRET issue ->
  jws_verify (jws_sign c (secret issue)) (secret issue) = Some c ->
  jws_verify token (secret verify) = Some c /\
  userId c = uid /\ claim_email c = em /\
  exp c = iat c + 7 * 24 * 60 * 60 /\
  1000 * iat c <= now issue < 1000 * iat c + 1000 /\
  (now verify < 1000 * exp c ->
   jwt_verify token (secret verify) (now verify) = Some c) /\
  (1000 * exp c <= now verify ->
   jwt_verify token (secret verify) (now verify) = None).
Proof.
  cbv zeta. intros Hk Hs.
  rewrite (secret_same verify issue Hk).
  pose proof (Z.mul_div_le (now issue) 1000 ltac:(lia)) as Hlo.
  pose proof (Z.mod_pos_bound (now issue) 1000 ltac:(lia)) as Hmod.
  pose proof (Z.div_mod (now issue) 1000 ltac:(lia)) as Hdm.
  split; [exact Hs|]. repeat split; simpl; try lia.
  - intros Hlt. unfold jwt_verify, jwt_sign, seven_days. rewrite Hs. simpl.
    destruct (Z.leb_spec (now issue / 1000 + 7 * 24 * 60 * 60) (now verify / 1000))
      as [Hle|_]; [|reflexivity].
    pose proof (Z.mul_div_le (now verify) 1000 ltac:(lia)). lia.
  - intros Hge. unfold jwt_verify, jwt_sign, seven_days. rewrite Hs. simpl.
    destruct (Z.leb_spec (now issue / 1000 + 7 * 24 * 60 * 60) (now verify / 1000))
      as [_|Hgt]; [reflexivity|].
    assert (now issue / 1000 + 7 * 24 * 60 * 60 <= now verify / 1000)
      by (apply Z.div_le_lower_bound; lia).
    lia.
Qed.

Lemma C6_token_lifetime_witness :
  jwt_verify (P := stub)
    (jwt_sign (P := stub) "id1" "a@x" (secret sample_env) (now sample_env))
    (secret sample_env) (now sample_env + 604799499)
  = Some (mkClaims "id1" "a@x" 1000 605800 None)
  /\
  jwt_verify (P := stub)
    (jwt_sign (P := stub) "id1" "a@x" (secret sample_env) (now sample_env))
    (secret sample_env) (now sample_env + 604799500)
  = None.
Proof.
  pose proof (C6_token_lifetime (P := stub) sample_env
                (mkEnv None (now sample_env + 604799499) "id4" "pepper") "id1" "a@x")
    as Hbefore.
  pose proof (C6_token_lifetime (P := stub) sample_env
                (mkEnv None (now sample_env + 604799500) "id4" "pepper") "id1" "a@x")
    as Hafter.
  cbv zeta in Hbefore, Hafter.
  split.
  - apply Hbefore; [reflexivity | vm_compute; reflexivity | vm_compute; reflexivity].
  - apply Hafter; [reflexivity | vm_compute; reflexivity | vm_compute; discriminate].
Defined.

(** ** The progress stub *)

(** C9 (fails on the date member): two authorized progress requests made
    one millisecond apart get different bodies, because
    [lastAssessmentDate] is the time of the request. *)
Lemma C9_counterexample :
  let later := mkEnv None (now sample_env + 1) "id3" "salt" in
  status (fst (serve (P := stub) sample_env (GetProgress alice_header) two_users)) = 200 /\
  status (fst (serve (P := stub) later (GetProgress alice_header) two_users)) = 200 /\
  body (fst (serve (P := stub) sample_env (GetProgress alice_header) two_users))
  <> body (fst (serve (P := stub) later (GetProgress alice_header) two_users)).
Proof.
  cbv zeta. repeat split; try (vm_compute; reflexivity).
  vm_compute. discriminate.
Qed.

(** C9, as the handler has it: an authorized progress request is answered
    200 with an object read from no stored data, no user and no request
    content: its score, its count and its history are constants, and
    [lastAssessmentDate] is the instant of the request; the store is left
    as it was.  Two authorized requests at the same instant get the same
    body. *)
Theorem C9_progress_payload `{P : Platform} (env : Env) (a : option string) (s : Store)
    (t : string) (d : Claims) :
  bearer a = Some t -> t <> "" ->
  jwt_verify t (secret env) (now env) = Some d ->
  serve env (GetProgress a) s
  = (mkResponse 200
       (JObj [("mentalHealthScore", JNum 75);
              ("assessmentsCompleted", JNum 3);
              ("lastAssessmentDate", JIso (now env));
              ("progressHistory",
                JArr [JObj [("date", JStr "2024-01-01"); ("score", JNum 65)];
                      JObj [("date", JStr "2024-01-15"); ("score", JNum 70)];
                      JObj [("date", JStr "2024-02-01"); ("score", JNum 75)]])]),
     s).
Proof.
  intros Hb Hne Hv. simpl. unfold authMiddleware.
  rewrite Hb, (truthy_true t Hne), Hv. reflexivity.
Qed.

Lemma C9_progress_payload_witness :
  body (fst (serve (P := stub) sample_env (GetProgress alice_header) two_users))
  = body (fst (serve (P := stub) sample_env (GetProgress alice_header) ∅)).
Proof.
  rewrite (C9_progress_payload (P := stub) sample_env alice_header two_users
             "your-secret-key.id1.a@x.1000.605800" (mkClaims "id1" "a@x" 1000 605800 None));
    [| vm_compute; reflexivity | discriminate | vm_compute; reflexivity].
  rewrite (C9_progress_payload (P := stub) sample_env alice_header ∅
             "your-secret-key.id1.a@x.1000.605800" (mkClaims "id1" "a@x" 1000 605800 None));
    [| vm_compute; reflexivity | discriminate | vm_compute; reflexivity].
  reflexivity.
Defined.

(** ** Responses never carry the digest *)

Lemma profile_clean (d : Doc) : has_member "password" (profile d) = false.
Proof. unfold profile. simpl. destruct (birthdate (fields d)); reflexivity. Qed.

Lemma update_saved_clean (s : Store) (d : Doc) :
  has_member "password" (body (fst (update_saved s d))) = false.
Proof.
  unfold update_saved. destruct (accepts s d); [|reflexivity].
  simpl. destruct (birthdate (fields d)); reflexivity.
Qed.

Lemma register_route_clean `{P : Platform} (env : Env) (b : RegisterBody) (s : Store) :
  has_member "password" (body (fst (register_route env b s))) = false.
Proof.
  unfold register_route, register_handler, try_catch, bind at 1, findOne.
  destruct (find_by_email (r_email b) s); [reflexivity|].
  unfold bind at 1, hash_password.
  destruct (r_password b) as [p|]; [|reflexivity].
  unfold ret, bind.
  destruct (save_cases true (new_User env (r_name b) (r_email b)
                               (bcrypt_hash p (salt env))) s) as [E|[_ E]];
    rewrite E; reflexivity.
Qed.

Lemma login_route_clean `{P : Platform} (env : Env) (b : LoginBody) (s : Store) :
  has_member "password" (body (fst (login_route env b s))) = false.
Proof.
  unfold login_route, login_handler, try_catch, bind at 1, findOne.
  destruct (find_by_email (l_email b) s) as [d|]; [|reflexivity].
  unfold bind, compare_password, ret, throw.
  destruct (l_password b); [|reflexivity].
  destruct (bcrypt_compare _ _); [|reflexivity].
  simpl. destruct (birthdate (fields d)); reflexivity.
Qed.

Lemma me_route_clean `{P : Platform} (uid : string) (s : Store) :
  has_member "password" (body (fst (me_route uid s))) = false.
Proof.
  unfold me_route, me_handler, try_catch, bind, findById.
  destruct (s !! uid) as [u|]; [|destruct (castObjectId uid); reflexivity].
  simpl. destruct (birthdate u); reflexivity.
Qed.

Lemma update_route_clean `{P : Platform} (env : Env) (uid : string) (b : UpdateBody)
    (s : Store) :
  has_member "password" (body (fst (update_route env uid b s))) = false.
Proof.
  destruct (update_route_cases env uid b s) as [[E|E]|[E|[d E]]]; rewrite E;
    [reflexivity | reflexivity | reflexivity | apply update_saved_clean].
Qed.

(** C1: whatever the request and the store, no object anywhere in the
    JSON body of the response, success or error, has a member named
    [password]: the stored digest is never sent.  Moreover the [user]
    objects that the success payloads carry are computed without reading
    the digest. *)
Theorem C1_no_password_in_responses `{P : Platform} (env : Env) (r : Request)
    (s : Store) :
  has_member "password" (body (fst (serve env r s))) = false /\
  (forall (d : Doc) (x : string),
      profile (set_password x d) = profile d /\
      registered (set_password x d) = registered d).
Proof.
  split; [|intros d x; split; reflexivity].
  destruct r as [b|b|a|a b|a]; simpl.
  - apply register_route_clean.
  - apply login_route_clean.
  - destruct (authMiddleware_cases env a me_route s) as [E|[E|[uid E]]];
      rewrite E; [reflexivity | reflexivity | apply me_route_clean].
  - destruct (authMiddleware_cases env a (fun uid => update_route env uid b) s)
      as [E|[E|[uid E]]];
      rewrite E; [reflexivity | reflexivity | apply update_route_clean].
  - destruct (authMiddleware_cases env a (fun _ => progress_route env) s)
      as [E|[E|[uid E]]];
      rewrite E; reflexivity.
Qed.

(** * Further properties of the code *)

(** ** Splitting the header *)

Lemma split_nonempty (sep : ascii) (s : string) : split sep s <> [].
Proof.
  destruct s as [|c r]; simpl; [discriminate|].
  destruct (Ascii.eqb c sep); [discriminate|].
  destruct (split sep r); discriminate.
Qed.

Lemma split_no_sep (sep : ascii) (s : string) :
  has_char sep s = false -> split sep s = [s].
Proof.
  unfold has_char. induction s as [|c r IH]; simpl; [reflexivity|].
  intros Hn. apply orb_false_iff in Hn as [Hc Hr].
  rewrite Ascii.eqb_sym, Hc, (IH Hr). reflexivity.
Qed.

Lemma split_app_sep (sep : ascii) (a r : string) :
  has_char sep a = false -> split sep (a ++ String sep r) = a :: split sep r.
Proof.
  unfold has_char. induction a as [|c a IH]; simpl.
  - intros _. rewrite Ascii.eqb_refl. reflexivity.
  - intros Hn. apply orb_false_iff in Hn as [Hc Ha].
    rewrite Ascii.eqb_sym, Hc, (IH Ha). reflexivity.
Qed.

(** [split] and [join] are inverse: joining the segments with the
    separator gives the string back, and no segment contains the
    separator. *)
Theorem split_concat (sep : ascii) (s : string) :
  String.concat (String sep EmptyString) (split sep s) = s /\
  (forall x : string, In x (split sep s) -> has_char sep x = false).
Proof.
  induction s as [|c r [IHc IHs]]; simpl.
  - split; [reflexivity|]. intros x [<-|[]]. reflexivity.
  - destruct (Ascii.eqb c sep) eqn:E.
    + apply Ascii.eqb_eq in E. subst c. split.
      * pose proof (split_nonempty sep r) as Hne.
        simpl. destruct (split sep r) as [|h t]; [destruct (Hne eq_refl)|].
        simpl in IHc |- *. rewrite IHc. reflexivity.
      * intros x [<-|Hin]; [reflexivity | apply IHs; exact Hin].
    + pose proof (split_nonempty sep r) as Hne.
      destruct (split sep r) as [|h t]; [destruct (Hne eq_refl)|]. split.
      * destruct t as [|h' t']; simpl in IHc |- *; rewrite <- IHc; reflexivity.
      * intros x [<-|Hin].
        -- unfold has_char. simpl. rewrite Ascii.eqb_sym, E. simpl.
           apply (IHs h). left. reflexivity.
        -- apply IHs. right. exact Hin.
Qed.

(** The token the middleware reads: a header without a space carries
    none; a header made of one word, a space and a text without space
    carries that text, whatever the first word is (the scheme is not
    compared with "Bearer"); and with two spaces after the word the token
    is the empty text between them. *)
Theorem bearer_token (scheme t : string) :
  has_char " " scheme = false ->
  bearer (Some scheme) = None /\
  (has_char " " t = false -> bearer (Some (scheme ++ " " ++ t)) = Some t) /\
  bearer (Some (scheme ++ "  " ++ t)) = Some "".
Proof.
  intros Hs. unfold bearer. split; [|split].
  - rewrite (split_no_sep _ _ Hs). reflexivity.
  - intros Ht. change (scheme ++ " " ++ t) with (scheme ++ String " " t).
    rewrite (split_app_sep _ _ _ Hs), (split_no_sep _ _ Ht). reflexivity.
  - change (scheme ++ "  " ++ t) with (scheme ++ String " " (String " " t)).
    rewrite (split_app_sep _ _ _ Hs). simpl. reflexivity.
Qed.

Lemma bearer_token_witness :
  bearer (Some "Token") = None /\
  bearer (Some ("Token" ++ " " ++ "abc.def")) = Some "abc.def".
Proof.
  destruct (bearer_token "Token" "abc.def") as (Hn & Hs & _); [reflexivity|].
  split; [exact Hn | apply Hs; reflexivity].
Defined.

(** ** Percent-encoding of the avatar name *)

Lemma hex_digits_unreserved (c : ascii) :
  unreserved (hex_digit (Nat.div (nat_of_ascii c) 16)) = true /\
  unreserved (hex_digit (Nat.modulo (nat_of_ascii c) 16)) = true.
Proof.
  destruct c as [[] [] [] [] [] [] [] []]; vm_compute; split; reflexivity.
Qed.

Lemma unreserved_not_percent (c : ascii) : unreserved c = true -> c <> "%"%char.
Proof. intros Hu ->. vm_compute in Hu. discriminate. Qed.

(** The encoded text is made of unreserved characters and percent signs
    only (so it holds no ampersand, equals sign, space or hash), and a
    text of unreserved characters is its own encoding. *)
Theorem encodeURIComponent_safe (s : string) :
  forallb uri_safe (list_ascii_of_string (encodeURIComponent s)) = true /\
  has_char "&" (encodeURIComponent s) = false /\
  (forallb unreserved (list_ascii_of_string s) = true -> encodeURIComponent s = s).
Proof.
  assert (forallb uri_safe (list_ascii_of_string (encodeURIComponent s)) = true) as Hsafe.
  { induction s as [|c r IH]; [reflexivity|].
    cbn [encodeURIComponent]. destruct (unreserved c) eqn:E.
    - cbn [list_ascii_of_string forallb]. rewrite IH.
      unfold uri_safe. rewrite E. reflexivity.
    - destruct (hex_digits_unreserved c) as [Hh Hl].
      change (percent_byte c ++ encodeURIComponent r)
        with (String "%"%char
                (String (hex_digit (Nat.div (nat_of_ascii c) 16))
                   (String (hex_digit (Nat.modulo (nat_of_ascii c) 16))
                      (encodeURIComponent r)))).
      cbn [list_ascii_of_string forallb]. rewrite IH.
      unfold uri_safe. rewrite Hh, Hl. reflexivity. }
  split; [exact Hsafe|]. split.
  - unfold has_char. apply not_true_is_false. intros Hex.
    apply existsb_exists in Hex as (c & Hin & Hc).
    apply Ascii.eqb_eq in Hc. subst c.
    rewrite forallb_forall in Hsafe. apply Hsafe in Hin.
    vm_compute in Hin. discriminate.
  - clear Hsafe. induction s as [|c r IH]; simpl; [reflexivity|].
    intros Hall. apply andb_true_iff in Hall as [Hc Hr].
    rewrite Hc, (IH Hr). reflexivity.
Qed.

Lemma encodeURIComponent_safe_witness :
  encodeURIComponent "Ada-Lovelace_1815" = "Ada-Lovelace_1815".
Proof.
  apply (proj2 (proj2 (encodeURIComponent_safe "Ada-Lovelace_1815"))).
  vm_compute. reflexivity.
Defined.

Lemma percent_byte_inj (c1 c2 : ascii) : percent_byte c1 = percent_byte c2 -> c1 = c2.
Proof.
  assert (forallb (fun n1 =>
            forallb (fun n2 =>
              implb (String.eqb (percent_byte (ascii_of_nat n1))
                                (percent_byte (ascii_of_nat n2)))
                    (Nat.eqb n1 n2))
              (seq 0 256)) (seq 0 256) = true) as Hall by (vm_compute; reflexivity).
  intros Heq. rewrite forallb_forall in Hall.
  pose proof (nat_ascii_bounded c1) as B1. pose proof (nat_ascii_bounded c2) as B2.
  assert (In (nat_of_ascii c1) (seq 0 256)) as I1 by (apply in_seq; lia).
  assert (In (nat_of_ascii c2) (seq 0 256)) as I2 by (apply in_seq; lia).
  specialize (Hall _ I1). rewrite forallb_forall in Hall. specialize (Hall _ I2).
  rewrite !ascii_nat_embedding in Hall.
  rewrite (proj2 (String.eqb_eq _ _) Heq) in Hall. simpl in Hall.
  apply Nat.eqb_eq in Hall.
  rewrite <- (ascii_nat_embedding c1), <- (ascii_nat_embedding c2), Hall. reflexivity.
Qed.

Lemma percent_byte_app (c : ascii) (r : string) :
  percent_byte c ++ r
  = String "%"%char
      (String (hex_digit (Nat.div (nat_of_ascii c) 16))
         (String (hex_digit (Nat.modulo (nat_of_ascii c) 16)) r)).
Proof. reflexivity. Qed.

(** The encoding loses nothing: two texts with the same encoding are the
    same text, so two names share an avatar address only when equal. *)
Theorem encodeURIComponent_inj (s1 s2 : string) :
  encodeURIComponent s1 = encodeURIComponent s2 -> s1 = s2.
Proof.
  revert s2. induction s1 as [|c1 r1 IH]; intros [|c2 r2];
    cbn [encodeURIComponent]; rewrite ?percent_byte_app.
  - reflexivity.
  - destruct (unreserved c2); rewrite ?percent_byte_app; discriminate.
  - destruct (unreserved c1); rewrite ?percent_byte_app; discriminate.
  - destruct (unreserved c1) eqn:U1, (unreserved c2) eqn:U2;
      rewrite ?percent_byte_app.
    + intros [= -> Hr]. rewrite (IH _ Hr). reflexivity.
    + intros [= -> _]. destruct (unreserved_not_percent _ U1 eq_refl).
    + intros [= <- _]. destruct (unreserved_not_percent _ U2 eq_refl).
    + intros [= Hh Hl Hr].
      assert (percent_byte c1 = percent_byte c2) as Hp.
      { unfold percent_byte. f_equal. f_equal; [exact Hh|]. f_equal. exact Hl. }
      rewrite (percent_byte_inj _ _ Hp), (IH _ Hr). reflexivity.
Qed.

Lemma encodeURIComponent_inj_witness : "a b" = "a b".
Proof. apply (encodeURIComponent_inj "a b" "a b"). reflexivity. Defined.

(** ** The signing key *)

(** The key is never the empty string (a missing or empty [JWT_SECRET]
    gives the built-in default), and a non-empty [JWT_SECRET] is the key. *)
Theorem secret_nonempty (env : Env) :
  secret env <> "" /\
  (forall k : string, JWT_SECRET env = Some k -> k <> "" -> secret env = k) /\
  (JWT_SECRET env = None \/ JWT_SECRET env = Some "" -> secret env = "your-secret-key").
Proof.
  unfold secret. split; [|split].
  - destruct (JWT_SECRET env) as [k|]; [|discriminate].
    destruct (truthy k) eqn:E; [|discriminate].
    intros ->. discriminate.
  - intros k -> Hk. rewrite (truthy_true k Hk). reflexivity.
  - intros [->| ->]; reflexivity.
Qed.

Lemma secret_nonempty_witness :
  secret (mkEnv (Some "s3cr3t") 0 "id" "salt") = "s3cr3t".
Proof.
  apply (proj1 (proj2 (secret_nonempty (mkEnv (Some "s3cr3t") 0 "id" "salt"))) "s3cr3t");
    [reflexivity | discriminate].
Defined.

(** ** Expiry and the middleware's decision *)

(** The instants at which a given token is accepted form an interval:
    a token accepted at two instants is accepted, with the same payload,
    at every instant between them.  A token accepted with a payload
    without [nbf] (as every token the handlers issue) is accepted at
    every earlier instant, and one accepted with an [nbf] is refused at
    every instant before that second. *)
Theorem jwt_verify_window `{P : Platform} (token key : string) :
  (forall (t1 t2 t3 : Z) (c : Claims),
      t1 <= t2 -> t2 <= t3 ->
      jwt_verify token key t1 = Some c -> is_Some (jwt_verify token key t3) ->
      jwt_verify token key t2 = Some c) /\
  (forall (t : Z) (c : Claims),
      jwt_verify token key t = Some c -> nbf c = None ->
      forall t' : Z, t' <= t -> jwt_verify token key t' = Some c) /\
  (forall (t : Z) (c : Claims) (n : Z),
      jwt_verify token key t = Some c -> nbf c = Some n ->
      forall t' : Z, t' < 1000 * n -> jwt_verify token key t' = None).
Proof.
  unfold jwt_verify, not_before.
  destruct (jws_verify token key) as [c0|];
    [|split; [|split]; intros; discriminate].
  split; [|split].
  - intros t1 t2 t3 c H12 H23 H1 [c3 H3].
    assert (t1 / 1000 <= t2 / 1000) by (apply Z.div_le_mono; lia).
    assert (t2 / 1000 <= t3 / 1000) by (apply Z.div_le_mono; lia).
    destruct (nbf c0) as [n|];
      repeat match goal with
             | H : context [Z.ltb ?a ?b] |- _ => destruct (Z.ltb_spec a b)
             | H : context [Z.leb ?a ?b] |- _ => destruct (Z.leb_spec a b)
             | |- context [Z.ltb ?a ?b] => destruct (Z.ltb_spec a b)
             | |- context [Z.leb ?a ?b] => destruct (Z.leb_spec a b)
             end; try discriminate; try lia; assumption.
  - intros t c Hacc Hn t' Hle.
    assert (t' / 1000 <= t / 1000) by (apply Z.div_le_mono; lia).
    destruct (nbf c0) as [n|] eqn:En.
    + destruct (Z.ltb_spec (t / 1000) n); [discriminate|].
      destruct (Z.leb_spec (exp c0) (t / 1000)); [discriminate|].
      injection Hacc as <-. congruence.
    + destruct (Z.leb_spec (exp c0) (t / 1000)); [discriminate|].
      destruct (Z.leb_spec (exp c0) (t' / 1000)); [lia | assumption].
  - intros t c n Hacc Hn t' Hlt.
    assert (t' / 1000 < n) by (apply Z.div_lt_upper_bound; lia).
    destruct (nbf c0) as [n0|] eqn:En.
    + destruct (Z.ltb_spec (t / 1000) n0); [discriminate|].
      destruct (Z.leb_spec (exp c0) (t / 1000)); [discriminate|].
      injection Hacc as <-. rewrite En in Hn. injection Hn as ->.
      destruct (Z.ltb_spec (t' / 1000) n); [reflexivity | lia].
    + destruct (Z.leb_spec (exp c0) (t / 1000)); [discriminate|].
      injection Hacc as <-. congruence.
Qed.

Lemma jwt_verify_window_witness :
  jwt_verify (P := stub) "your-secret-key.id1.a@x.1000.605800.2000" "your-secret-key"
    1999999 = None /\
  jwt_verify (P := stub) "your-secret-key.id1.a@x.1000.605800.2000" "your-secret-key"
    3000000 = Some (mkClaims "id1" "a@x" 1000 605800 (Some 2000)).
Proof.
  destruct (jwt_verify_window (P := stub) "your-secret-key.id1.a@x.1000.605800.2000"
              "your-secret-key") as (Hmid & _ & Hbefore).
  split.
  - apply (Hbefore 2000000 (mkClaims "id1" "a@x" 1000 605800 (Some 2000)) 2000);
      [vm_compute; reflexivity | reflexivity | lia].
  - apply (Hmid 2000000 3000000 4000000); [lia | lia | vm_compute; reflexivity |].
    exists (mkClaims "id1" "a@x" 1000 605800 (Some 2000)). vm_compute. reflexivity.
Defined.

(** The middleware decides from the header, the key and the clock alone:
    either it hands every store to the handler with one and the same
    [userId], or it answers one and the same 401 on every store.  The
    collection is not consulted, so a token keeps working after its
    user's email or password has changed. *)
Theorem authMiddleware_stateless `{P : Platform} (env : Env) (a : option string) :
  (exists uid : string,
      forall (next : string -> Store -> Response * Store) (s : Store),
        authMiddleware env a next s = next uid s) \/
  (exists r : Response,
      status r = 401 /\ error_shaped r /\
      forall (next : string -> Store -> Response * Store) (s : Store),
        authMiddleware env a next s = (r, s)).
Proof.
  unfold authMiddleware, error_shaped.
  destruct (bearer a) as [t|].
  - destruct (truthy t).
    + destruct (jwt_verify t (secret env) (now env)) as [d|].
      * left. exists (userId d). reflexivity.
      * right. exists (mkResponse 401 (message_body "Invalid token")).
        split; [reflexivity | split; [eexists; reflexivity | reflexivity]].
    + right. exists (mkResponse 401 (message_body "No token provided")).
      split; [reflexivity | split; [eexists; reflexivity | reflexivity]].
  - right. exists (mkResponse 401 (message_body "No token provided")).
    split; [reflexivity | split; [eexists; reflexivity | reflexivity]].
Qed.

(** ** Registration *)

Lemma accepts_intro (s : Store) (d : Doc) :
  castError d = false -> required_ok (fields d) = true ->
  (forall (j : string) (v : User),
      s !! j = Some v -> email v = email (fields d) -> j = _id d) ->
  accepts s d = true.
Proof.
  intros Hc Hr Hfree. unfold accepts. rewrite Hc, Hr. simpl.
  apply negb_true_iff, email_taken_false. exact Hfree.
Qed.

Lemma find_by_email_absent (e : option string) (s : Store) :
  (forall (i : string) (u : User), s !! i = Some u -> e <> Some (email u)) ->
  find_by_email e s = None.
Proof.
  intros Hno. destruct e as [e|]; [|reflexivity].
  apply find_by_email_None. intros i u Hs He. apply (Hno i u Hs). congruence.
Qed.

Lemma find_by_email_only (s : Store) (i : string) (u : User) :
  s !! i = Some u ->
  (forall (j : string) (v : User), s !! j = Some v -> email v = email u -> j = i) ->
  find_by_email (Some (email u)) s = Some (mkDoc i u false).
Proof.
  intros Hs Honly. simpl.
  assert (with_email (email u) s = [(i, u)]) as ->; [|reflexivity].
  apply only_element.
  - unfold with_email. apply NoDup_ListNoDup, List.NoDup_filter, NoDup_ListNoDup.
    apply NoDup_map_to_list.
  - apply with_email_In. auto.
  - intros [j v] Hin. apply with_email_In in Hin as [Hj He].
    assert (j = i) as -> by exact (Honly j v Hj He). congruence.
Qed.

Lemma truthy_nonempty (x : string) : truthy x = true <-> x <> "".
Proof.
  unfold truthy. rewrite negb_true_iff. apply String.eqb_neq.
Qed.

Lemma register_route_created `{P : Platform} (env : Env) (b : RegisterBody) (s : Store)
    (n e p : string) :
  r_name b = Some n -> r_email b = Some e -> r_password b = Some p ->
  n <> "" -> e <> "" -> bcrypt_hash p (salt env) <> "" ->
  (forall (i : string) (u : User), s !! i = Some u -> email u <> e) ->
  s !! objectId env = None ->
  register_route env b s
  = (mkResponse 201
       (JObj [("message", JStr "User created successfully");
              ("token", JStr (jwt_sign (objectId env) e (secret env) (now env)));
              ("user", JObj [("id", JStr (objectId env));
                             ("name", JStr n);
                             ("email", JStr e)])]),
     <[objectId env := mkUser n e (bcrypt_hash p (salt env)) "" None (now env)]> s).
Proof.
  intros Hn He Hp Hn' He' Hh Hno Hfresh.
  unfold register_route, register_handler, try_catch, bind at 1, findOne.
  rewrite He. rewrite (proj2 (find_by_email_None e s) Hno).
  unfold bind at 1, hash_password. rewrite Hp. unfold ret, bind, save.
  rewrite Hn. unfold new_User. simpl.
  assert (accepts s (mkDoc (objectId env)
                       (mkUser n e (bcrypt_hash p (salt env)) "" None (now env)) false)
          = true) as ->.
  { apply accepts_intro; simpl; [reflexivity| |].
    - unfold required_ok. simpl.
      rewrite (proj2 (truthy_nonempty n) Hn'), (proj2 (truthy_nonempty e) He'),
        (proj2 (truthy_nonempty _) Hh). reflexivity.
    - intros j v Hj Hv. destruct (Hno j v Hj Hv). }
  simpl. rewrite Hfresh. reflexivity.
Qed.

(** A registration with a non-empty name and email and a password, for
    an email no stored record has, with a fresh [_id] and a non-empty
    digest, is answered 201 with the token issued for the new id and
    email and the new user's id, name and email; the store gains exactly
    the new record: the digest as password, an empty phone, no birthdate
    and the request's instant as [createdAt]. *)
Theorem register_success `{P : Platform} (env : Env) (b : RegisterBody) (s : Store)
    (n e p : string) :
  r_name b = Some n -> r_email b = Some e -> r_password b = Some p ->
  n <> "" -> e <> "" -> bcrypt_hash p (salt env) <> "" ->
  (forall (i : string) (u : User), s !! i = Some u -> email u <> e) ->
  s !! objectId env = None ->
  register_route env b s
  = (mkResponse 201
       (JObj [("message", JStr "User created successfully");
              ("token", JStr (jwt_sign (objectId env) e (secret env) (now env)));
              ("user", JObj [("id", JStr (objectId env));
                             ("name", JStr n);
                             ("email", JStr e)])]),
     <[objectId env := mkUser n e (bcrypt_hash p (salt env)) "" None (now env)]> s).
Proof.
  intros Hn He Hp Hn' He' Hh Hno Hfresh.
  apply (register_route_created env b s n e p); assumption.
Qed.

Lemma register_success_witness :
  snd (register_route (P := stub) sample_env carol_body two_users) !! "id3"
  = Some (mkUser "Carol" "c@x" "salt$opensesame" "" None 1000500).
Proof.
  rewrite (register_success (P := stub) sample_env carol_body two_users
             "Carol" "c@x" "opensesame");
    try reflexivity; try discriminate.
  - intros i u Hs He.
    assert (find_by_email (Some "c@x") two_users = None) as Hn
        by (vm_compute; reflexivity).
    exact (proj1 (find_by_email_None "c@x" two_users) Hn i u Hs He).
Defined.

(** A registration that is not refused as a duplicate and lacks a
    password, or has a missing or empty name or email, or draws an [_id]
    already in use, is answered 500 "Server error" and stores nothing. *)
Theorem register_failure `{P : Platform} (env : Env) (b : RegisterBody) (s : Store) :
  (forall (i : string) (u : User), s !! i = Some u -> r_email b <> Some (email u)) ->
  r_password b = None \/ truthy_opt (r_name b) = false \/
  truthy_opt (r_email b) = false \/ is_Some (s !! objectId env) ->
  register_route env b s = (mkResponse 500 (message_body "Server error"), s).
Proof.
  intros Hno Hbad.
  unfold register_route, register_handler, try_catch, bind at 1, findOne.
  rewrite (find_by_email_absent _ _ Hno).
  unfold bind at 1, hash_password.
  destruct (r_password b) as [p|] eqn:Hp; [|reflexivity].
  unfold ret, bind, save.
  destruct (accepts s _) eqn:Ha; [|reflexivity]. simpl.
  destruct Hbad as [Hbad|[Hbad|[Hbad|Hbad]]].
  - discriminate.
  - exfalso. unfold accepts, required_ok, new_User in Ha. simpl in Ha.
    destruct (r_name b) as [n|]; simpl in Hbad, Ha;
      [rewrite Hbad in Ha|]; simpl in Ha;
      rewrite ?andb_false_r in Ha; discriminate.
  - exfalso. unfold accepts, required_ok, new_User in Ha. simpl in Ha.
    destruct (r_email b) as [e|]; simpl in Hbad, Ha;
      [rewrite Hbad in Ha|]; simpl in Ha;
      rewrite ?andb_false_r in Ha; simpl in Ha; discriminate.
  - destruct Hbad as [v Hv]. rewrite Hv. reflexivity.
Qed.

Lemma register_failure_witness :
  register_route (P := stub) sample_env
    (mkRegisterBody (Some "Carol") (Some "c@x") None) two_users
  = (mkResponse 500 (message_body "Server error"), two_users).
Proof.
  apply (register_failure (P := stub) sample_env
           (mkRegisterBody (Some "Carol") (Some "c@x") None) two_users).
  - intros i u Hs. simpl. intros [= He].
    assert (find_by_email (Some "c@x") two_users = None) as Hn
        by (vm_compute; reflexivity).
    exact (proj1 (find_by_email_None "c@x" two_users) Hn i u Hs (eq_sym He)).
  - left. reflexivity.
Defined.

(** ** Login and the session it opens *)

Lemma login_route_verified `{P : Platform} (env : Env) (b : LoginBody) (s : Store)
    (d : Doc) (p : string) :
  find_by_email (l_email b) s = Some d ->
  l_password b = Some p ->
  bcrypt_compare p (password (fields d)) = true ->
  login_route env b s
  = (mkResponse 200
       (JObj [("message", JStr "Login successful");
              ("token", JStr (jwt_sign (_id d) (email (fields d)) (secret env) (now env)));
              ("user", profile d)]),
     s).
Proof.
  intros Hf Hp Hcmp.
  unfold login_route, login_handler, try_catch, bind, findOne.
  rewrite Hf, Hp. simpl. unfold bind, ret. rewrite Hcmp. reflexivity.
Qed.

(** A login whose email resolves to a record and whose password verifies
    against that record's digest is answered 200 with a token issued for
    the record's id and email and the record's public profile; the store
    is left as it was. *)
Theorem login_success `{P : Platform} (env : Env) (b : LoginBody) (s : Store)
    (d : Doc) (p : string) :
  find_by_email (l_email b) s = Some d ->
  l_password b = Some p ->
  bcrypt_compare p (password (fields d)) = true ->
  login_route env b s
  = (mkResponse 200
       (JObj [("message", JStr "Login successful");
              ("token", JStr (jwt_sign (_id d) (email (fields d)) (secret env) (now env)));
              ("user", profile d)]),
     s).
Proof.
  intros Hf Hp Hcmp. apply (login_route_verified env b s d p); assumption.
Qed.

Lemma login_success_witness :
  status (fst (login_route (P := stub) sample_env
                 (mkLoginBody (Some "a@x") (Some "secret1")) two_users)) = 200.
Proof.
  rewrite (login_success (P := stub) sample_env
             (mkLoginBody (Some "a@x") (Some "secret1")) two_users
             (mkDoc "id1" alice false) "secret1");
    vm_compute; reflexivity.
Defined.

(** Register, then log in: after a successful registration, a login with
    the same email and password (at any later moment, the digest
    verifying for its own plaintext) is answered 200 with a token whose
    [userId] is the id the registration returned, on the store the
    registration left. *)
Theorem register_then_login `{P : Platform} (env env' : Env) (b : RegisterBody)
    (s : Store) (n e p : string) :
  r_name b = Some n -> r_email b = Some e -> r_password b = Some p ->
  n <> "" -> e <> "" -> bcrypt_hash p (salt env) <> "" ->
  (forall (i : string) (u : User), s !! i = Some u -> email u <> e) ->
  s !! objectId env = None ->
  bcrypt_compare p (bcrypt_hash p (salt env)) = true ->
  let s1 := snd (register_route env b s) in
  login_route env' (mkLoginBody (Some e) (Some p)) s1
  = (mkResponse 200
       (JObj [("message", JStr "Login successful");
              ("token", JStr (jwt_sign (objectId env) e (secret env') (now env')));
              ("user",
                profile (mkDoc (objectId env)
                           (mkUser n e (bcrypt_hash p (salt env)) "" None (now env))
                           false))]),
     s1).
Proof.
  intros Hn He Hp Hn' He' Hh Hno Hfresh Hcmp s1. subst s1.
  rewrite (register_route_created env b s n e p) by assumption. simpl snd.
  apply (login_route_verified env' (mkLoginBody (Some e) (Some p)) _
           (mkDoc (objectId env)
              (mkUser n e (bcrypt_hash p (salt env)) "" None (now env)) false) p);
    [|reflexivity|exact Hcmp].
  simpl l_email.
  apply (find_by_email_only _ (objectId env)
           (mkUser n e (bcrypt_hash p (salt env)) "" None (now env))).
  - apply lookup_insert_eq.
  - intros j v Hj Hv. simpl in Hv.
    destruct (string_dec j (objectId env)) as [|Hne]; [assumption|].
    rewrite lookup_insert_ne in Hj by congruence.
    destruct (Hno j v Hj Hv).
Qed.

Lemma register_then_login_witness :
  status (fst (login_route (P := stub) (mkEnv None 2000000 "id4" "pepper")
                 (mkLoginBody (Some "c@x") (Some "opensesame"))
                 (snd (register_route (P := stub) sample_env carol_body two_users))))
  = 200.
Proof.
  pose proof (register_then_login (P := stub) sample_env
                (mkEnv None 2000000 "id4" "pepper") carol_body two_users
                "Carol" "c@x" "opensesame") as Hl.
  cbv zeta in Hl. rewrite Hl.
  - reflexivity.
  - reflexivity.
  - reflexivity.
  - reflexivity.
  - discriminate.
  - discriminate.
  - discriminate.
  - intros i u Hs He.
    assert (find_by_email (Some "c@x") two_users = None) as Hn
        by (vm_compute; reflexivity).
    exact (proj1 (find_by_email_None "c@x" two_users) Hn i u Hs He).
  - vm_compute. reflexivity.
  - vm_compute. reflexivity.
Defined.

Lemma me_route_found `{P : Platform} (uid : string) (s : Store) (u : User) :
  s !! uid = Some u ->
  me_route uid s
  = (mkResponse 200 (JObj [("user", profile (mkDoc uid u false))]), s).
Proof.
  intros Hs. unfold me_route, me_handler, try_catch, bind, findById.
  rewrite Hs. reflexivity.
Qed.

(** Register, then ask who I am: the token a successful registration
    returns, sent as [Bearer token] under the same [JWT_SECRET] before
    its expiry, makes [GET /api/auth/me] answer 200 with the profile of
    the new user; from its expiry on the answer is 401 "Invalid token".
    The signature scheme is assumed to open what it signed, with tokens
    free of spaces and not empty. *)
Theorem register_then_me `{P : Platform} (env env' : Env) (b : RegisterBody)
    (s : Store) (n e p : string) :
  r_name b = Some n -> r_email b = Some e -> r_password b = Some p ->
  n <> "" -> e <> "" -> bcrypt_hash p (salt env) <> "" ->
  (forall (i : string) (u : User), s !! i = Some u -> email u <> e) ->
  s !! objectId env = None ->
  JWT_SECRET env' = JWT_SECRET env ->
  let c := mkClaims (objectId env) e (now env / 1000) (now env / 1000 + 7 * 24 * 60 * 60)
                    None in
  let token := jwt_sign (objectId env) e (secret env) (now env) in
  let s1 := snd (register_route env b s) in
  jws_verify (jws_sign c (secret env)) (secret env) = Some c ->
  has_char " " token = false -> token <> "" ->
  (now env' < 1000 * exp c ->
   serve env' (GetMe (Some ("Bearer " ++ token))) s1
   = (mkResponse 200
        (JObj [("user",
                 JObj [("id", JStr (objectId env));
                       ("name", JStr n);
                       ("email", JStr e);
                       ("phone", JStr "");
                       ("birthdate", JStr "");
                       ("profileImage", JStr (profileImage n))])]),
      s1)) /\
  (1000 * exp c <= now env' ->
   serve env' (GetMe (Some ("Bearer " ++ token))) s1
   = (mkResponse 401 (message_body "Invalid token"), s1)).
Proof.
  intros Hn He Hp Hn' He' Hh Hno Hfresh Hk c token s1 Hsig Hsp Hne.
  assert (bearer (Some ("Bearer " ++ token)) = Some token) as Hb.
  { unfold bearer. change ("Bearer " ++ token) with ("Bearer" ++ String " " token).
    rewrite (split_app_sep " " "Bearer" token eq_refl), (split_no_sep _ _ Hsp).
    reflexivity. }
  pose proof (Z.mul_div_le (now env') 1000 ltac:(lia)) as Hlo.
  assert (jws_verify token (secret env') = Some c) as Hopen.
  { rewrite (secret_same env' env Hk). exact Hsig. }
  subst s1. rewrite (register_route_created env b s n e p) by assumption. simpl snd.
  split; intros Ht; simpl serve; unfold authMiddleware;
    rewrite Hb, (truthy_true token Hne); unfold jwt_verify; rewrite Hopen;
    change (not_before c (now env' / 1000)) with false; cbv iota.
  - destruct (Z.leb_spec (exp c) (now env' / 1000)) as [Hle|_]; [simpl in *; lia|].
    simpl userId.
    rewrite (me_route_found (objectId env) _
               (mkUser n e (bcrypt_hash p (salt env)) "" None (now env)))
      by apply lookup_insert_eq.
    reflexivity.
  - destruct (Z.leb_spec (exp c) (now env' / 1000)) as [_|Hgt]; [reflexivity|].
    assert (exp c <= now env' / 1000) by (apply Z.div_le_lower_bound; lia).
    lia.
Qed.

Lemma register_then_me_witness :
  status (fst (serve (P := stub) (mkEnv None 2000000 "id4" "pepper")
                 (GetMe (Some ("Bearer " ++
                    jwt_sign (P := stub) (objectId sample_env) "c@x"
                      (secret sample_env) (now sample_env))))
                 (snd (register_route (P := stub) sample_env carol_body two_users))))
  = 200.
Proof.
  pose proof (register_then_me (P := stub) sample_env
                (mkEnv None 2000000 "id4" "pepper") carol_body two_users
                "Carol" "c@x" "opensesame") as Hm.
  cbv zeta in Hm.
  destruct Hm as [Hok _].
  - reflexivity.
  - reflexivity.
  - reflexivity.
  - discriminate.
  - discriminate.
  - discriminate.
  - intros i u Hs He.
    assert (find_by_email (Some "c@x") two_users = None) as Hn
        by (vm_compute; reflexivity).
    exact (proj1 (find_by_email_None "c@x" two_users) Hn i u Hs He).
  - vm_compute. reflexivity.
  - reflexivity.
  - vm_compute. reflexivity.
  - vm_compute. reflexivity.
  - discriminate.
  - rewrite Hok; [reflexivity | vm_compute; reflexivity].
Defined.

(** ** What no request does to the store *)

Lemma update_route_found_cases `{P : Platform} (env : Env) (uid : string)
    (b : UpdateBody) (s : Store) (u : User) :
  s !! uid = Some u ->
  update_route env uid b s
  = (mkResponse 400 (message_body "Current password is incorrect"), s) \/
  exists d : Doc,
    _id d = uid /\ createdAt (fields d) = createdAt u /\
    update_route env uid b s = update_saved s d.
Proof.
  intros Hs.
  pose proof (assign_profile_id b (mkDoc uid u false)) as Hid.
  pose proof (assign_profile_createdAt b (mkDoc uid u false)) as Hcr.
  simpl in Hid, Hcr.
  destruct (truthy_opt (u_currentPassword b) && truthy_opt (u_newPassword b))%bool
    eqn:G.
  - apply andb_true_iff in G as [Gc Gn].
    apply truthy_opt_Some in Gc as (cur & Hc & Hc').
    apply truthy_opt_Some in Gn as (new & Hw & Hw').
    destruct (bcrypt_compare cur (password u)) eqn:Hcmp.
    + right. eexists. split; [|split]; cycle 2.
      * apply (update_route_match env uid b s u Hs cur new); assumption.
      * simpl. exact Hid.
      * simpl. exact Hcr.
    + left. apply (update_route_mismatch env uid b s u Hs cur new); assumption.
  - right. eexists. split; [|split]; cycle 2.
    + apply (update_route_plain env uid b s u Hs G).
    + exact Hid.
    + exact Hcr.
Qed.

Lemma register_route_fresh `{P : Platform} (env : Env) (b : RegisterBody) (s : Store) :
  snd (register_route env b s) = s \/
  s !! objectId env = None /\
  exists u : User, snd (register_route env b s) = <[objectId env := u]> s.
Proof.
  destruct (register_route env b s) as [r s'] eqn:E. simpl. revert E.
  unfold register_route, register_handler, try_catch, bind at 1, findOne.
  destruct (find_by_email (r_email b) s); [intros [= _ <-]; auto|].
  unfold bind at 1, hash_password.
  destruct (r_password b) as [p|]; [|intros [= _ <-]; auto].
  unfold ret, bind, save.
  destruct (accepts s _); simpl; [|intros [= _ <-]; auto].
  destruct (s !! objectId env) eqn:Hf; intros [= _ <-]; eauto.
Qed.

(** Whatever the request, no record is deleted and no record's
    [createdAt] changes: every id stored before is still stored, with the
    same creation instant; and the only id that can be new afterwards is
    the [_id] drawn for a registration. *)
Theorem serve_keeps_records `{P : Platform} (env : Env) (r : Request) (s : Store) :
  (forall (i : string) (u : User),
      s !! i = Some u ->
      exists u' : User,
        snd (serve env r s) !! i = Some u' /\ createdAt u' = createdAt u) /\
  (forall i : string,
      is_Some (snd (serve env r s) !! i) -> is_Some (s !! i) \/ i = objectId env).
Proof.
  assert (snd (serve env r s) = s \/
          (s !! objectId env = None /\
           exists u : User, snd (serve env r s) = <[objectId env := u]> s) \/
          (exists (uid : string) (u u' : User),
              s !! uid = Some u /\ createdAt u' = createdAt u /\
              snd (serve env r s) = <[uid := u']> s)) as Hc.
  { destruct r as [b|b|a|a b|a]; simpl.
    - destruct (register_route_fresh env b s) as [E|E]; auto.
    - left. apply login_route_store.
    - destruct (authMiddleware_cases env a me_route s) as [E|[E|[uid E]]];
        rewrite E; auto. left. apply me_route_store.
    - destruct (authMiddleware_cases env a (fun uid => update_route env uid b) s)
        as [E|[E|[uid E]]]; rewrite E; auto.
      destruct (s !! uid) as [u|] eqn:Hs.
      + destruct (update_route_found_cases env uid b s u Hs) as [E'|(d & Hid & Hcr & E')];
          rewrite E'; auto.
        unfold update_saved. destruct (accepts s d); auto.
        right. right. exists uid, u, (fields d). simpl. rewrite Hid. auto.
      + rewrite (update_route_absent env uid b s Hs). auto.
    - destruct (authMiddleware_cases env a (fun _ => progress_route env) s)
        as [E|[E|[uid E]]]; rewrite E; auto. }
  destruct Hc as [E|[[Hf [u0 E]]|(uid & u0 & u0' & Hs & Hcr & E)]]; rewrite E; split.
  - intros i u Hi. eauto.
  - auto.
  - intros i u Hi. exists u. split; [|reflexivity].
    rewrite lookup_insert_ne; [exact Hi | congruence].
  - intros i Hi. destruct (string_dec i (objectId env)) as [|Hne]; [auto|].
    rewrite lookup_insert_ne in Hi by congruence. auto.
  - intros i u Hi. destruct (string_dec i uid) as [->|Hne].
    + exists u0'. rewrite lookup_insert_eq. split; congruence.
    + exists u. rewrite lookup_insert_ne by congruence. auto.
  - intros i Hi. left. destruct (string_dec i uid) as [->|Hne].
    + rewrite Hs. eauto.
    + rewrite lookup_insert_ne in Hi by congruence. exact Hi.
Qed.

Lemma serve_keeps_records_witness :
  exists u' : User,
    snd (serve (P := stub) sample_env (PostRegister carol_body) two_users) !! "id2"
    = Some u' /\ createdAt u' = createdAt bob.
Proof.
  apply (proj1 (serve_keeps_records (P := stub) sample_env (PostRegister carol_body)
                  two_users) "id2" bob).
  vm_compute. reflexivity.
Defined.

(** Login, get-current-user and progress requests never write: the store
    after them is the store before, whatever they answer. *)
Theorem read_only_routes `{P : Platform} (env : Env) (s : Store) (b : LoginBody)
    (a : option string) :
  snd (serve env (PostLogin b) s) = s /\
  snd (serve env (GetMe a) s) = s /\
  snd (serve env (GetProgress a) s) = s.
Proof.
  simpl. split; [apply login_route_store|]. split.
  - destruct (authMiddleware_cases env a me_route s) as [E|[E|[uid E]]];
      rewrite E; auto. apply me_route_store.
  - destruct (authMiddleware_cases env a (fun _ => progress_route env) s)
      as [E|[E|[uid E]]]; rewrite E; auto.
Qed.

(** The required fields are an invariant of the store: if every stored
    record has a non-empty name, email and password, so has every record
    after any request. *)
Theorem serve_keeps_required `{P : Platform} (env : Env) (r : Request) (s : Store) :
  all_required s -> all_required (snd (serve env r s)).
Proof.
  intros Hall. destruct (serve_store env r s) as [E|(d & Ha & E)]; rewrite E.
  - exact Hall.
  - intros i u Hi. destruct (string_dec i (_id d)) as [->|Hne].
    + rewrite lookup_insert_eq in Hi. injection Hi as <-.
      unfold accepts in Ha. apply andb_true_iff in Ha as [Ha _].
      apply andb_true_iff in Ha as [_ Ha]. exact Ha.
    + rewrite lookup_insert_ne in Hi by congruence. exact (Hall i u Hi).
Qed.

Lemma serve_keeps_required_witness :
  all_required (snd (serve (P := stub) sample_env
                       (PostRegister (mkRegisterBody (Some "") (Some "d@x") (Some "pw")))
                       two_users)).
Proof.
  apply (serve_keeps_required (P := stub) sample_env
           (PostRegister (mkRegisterBody (Some "") (Some "d@x") (Some "pw"))) two_users).
  intros i u Hi. unfold two_users in Hi.
  destruct (string_dec i "id1") as [->|H1].
  - rewrite lookup_insert_eq in Hi. injection Hi as <-. reflexivity.
  - rewrite lookup_insert_ne in Hi by congruence.
    destruct (string_dec i "id2") as [->|H2].
    + rewrite lookup_insert_eq in Hi. injection Hi as <-. reflexivity.
    + rewrite lookup_insert_ne in Hi by congruence.
      rewrite lookup_empty in Hi. discriminate.
Defined.

(** ** The shape of every answer *)

Lemma error_answer (code : Z) (msg : string) :
  In code [400; 401; 404; 500] ->
  In (status (mkResponse code (message_body msg))) [400; 401; 404; 500] /\
  error_shaped (mkResponse code (message_body msg)).
Proof. intros Hin. split; [exact Hin | exists msg; reflexivity]. Qed.

Ltac answered :=
  intros [= <- _]; simpl;
  first [left; reflexivity | right; apply error_answer; simpl; auto].

Lemma register_route_answer `{P : Platform} (env : Env) (b : RegisterBody) (s : Store) :
  status (fst (register_route env b s)) = 201 \/
  In (status (fst (register_route env b s))) [400; 401; 404; 500] /\
  error_shaped (fst (register_route env b s)).
Proof.
  destruct (register_route env b s) as [r s'] eqn:E. revert E.
  unfold register_route, register_handler, try_catch, bind at 1, findOne.
  destruct (find_by_email (r_email b) s); [answered|].
  unfold bind at 1, hash_password.
  destruct (r_password b) as [p|]; [|answered].
  unfold ret, bind.
  destruct (save_cases true (new_User env (r_name b) (r_email b)
                               (bcrypt_hash p (salt env))) s) as [E|[_ E]];
    rewrite E; answered.
Qed.

Lemma login_route_answer `{P : Platform} (env : Env) (b : LoginBody) (s : Store) :
  status (fst (login_route env b s)) = 200 \/
  In (status (fst (login_route env b s))) [400; 401; 404; 500] /\
  error_shaped (fst (login_route env b s)).
Proof.
  destruct (login_route env b s) as [r s'] eqn:E. revert E.
  unfold login_route, login_handler, try_catch, bind at 1, findOne.
  destruct (find_by_email (l_email b) s) as [d|]; [|answered].
  unfold bind, compare_password, ret, throw.
  destruct (l_password b); [|answered].
  destruct (bcrypt_compare _ _); answered.
Qed.

Lemma me_route_answer `{P : Platform} (uid : string) (s : Store) :
  status (fst (me_route uid s)) = 200 \/
  In (status (fst (me_route uid s))) [400; 401; 404; 500] /\
  error_shaped (fst (me_route uid s)).
Proof.
  destruct (me_route uid s) as [r s'] eqn:E. revert E.
  unfold me_route, me_handler, try_catch, bind, findById.
  destruct (s !! uid); [answered|]. destruct (castObjectId uid); answered.
Qed.

Lemma update_route_answer `{P : Platform} (env : Env) (uid : string) (b : UpdateBody)
    (s : Store) :
  status (fst (update_route env uid b s)) = 200 \/
  In (status (fst (update_route env uid b s))) [400; 401; 404; 500] /\
  error_shaped (fst (update_route env uid b s)).
Proof.
  destruct (update_route_cases env uid b s) as [[E|E]|[E|[d E]]]; rewrite E;
    try (right; apply error_answer; simpl; auto; fail).
  unfold update_saved. destruct (accepts s d);
    [left; reflexivity | right; apply error_answer; simpl; auto].
Qed.

(** Every answer has one of six status codes; 201 is given to
    registrations only, and every answer that is not a 200 or a 201 is an
    error payload: an object with the single member [message]. *)
Theorem serve_answers `{P : Platform} (env : Env) (r : Request) (s : Store) :
  In (status (fst (serve env r s))) [200; 201; 400; 401; 404; 500] /\
  (status (fst (serve env r s)) = 201 -> exists b : RegisterBody, r = PostRegister b) /\
  (status (fst (serve env r s)) <> 200 -> status (fst (serve env r s)) <> 201 ->
   error_shaped (fst (serve env r s))).
Proof.
  assert ((status (fst (serve env r s)) = 200 \/
           status (fst (serve env r s)) = 201 /\
           exists b : RegisterBody, r = PostRegister b) \/
          In (status (fst (serve env r s))) [400; 401; 404; 500] /\
          error_shaped (fst (serve env r s))) as Hc.
  { destruct r as [b|b|a|a b|a]; simpl.
    - destruct (register_route_answer env b s) as [E|E]; eauto.
    - destruct (login_route_answer env b s) as [E|E]; auto.
    - destruct (authMiddleware_cases env a me_route s) as [E|[E|[uid E]]];
        rewrite E; try (right; apply error_answer; simpl; auto; fail).
      destruct (me_route_answer uid s) as [E'|E']; auto.
    - destruct (authMiddleware_cases env a (fun uid => update_route env uid b) s)
        as [E|[E|[uid E]]];
        rewrite E; try (right; apply error_answer; simpl; auto; fail).
      destruct (update_route_answer env uid b s) as [E'|E']; auto.
    - destruct (authMiddleware_cases env a (fun _ => progress_route env) s)
        as [E|[E|[uid E]]];
        rewrite E; try (right; apply error_answer; simpl; auto; fail).
      left. left. reflexivity. }
  destruct Hc as [[E|[E Hr]]|[Hin Hsh]].
  - rewrite E. split; [simpl; auto|]. split; [discriminate|]. intros Hne. destruct (Hne eq_refl).
  - rewrite E. split; [simpl; auto|]. split; [intros _; exact Hr|].
    intros _ Hne. destruct (Hne eq_refl).
  - split; [simpl in *; tauto|]. split; [|intros _ _; exact Hsh].
    intros E. rewrite E in Hin. simpl in Hin.
    destruct Hin as [Hx|[Hx|[Hx|[Hx|[]]]]]; discriminate.
Qed.

(** ** Updating the profile *)





Lemma update_route_refused `{P : Platform} (env : Env) (uid : string) (b : UpdateBody)
    (s : Store) (u : User) :
  s !! uid = Some u ->
  castError (assign_profile b (mkDoc uid u false)) = true \/
  email_taken uid (email (fields (assign_profile b (mkDoc uid u false)))) s = true ->
  update_route env uid b s = (mkResponse 500 (message_body "Server error"), s) \/
  update_route env uid b s
  = (mkResponse 400 (message_body "Current password is incorrect"), s).
Proof.
  intros Hs Hbad.
  pose proof (assign_profile_id b (mkDoc uid u false)) as Hid. simpl in Hid.
  assert (forall d : Doc,
             _id d = uid ->
             castError d = castError (assign_profile b (mkDoc uid u false)) ->
             email (fields d) = email (fields (assign_profile b (mkDoc uid u false))) ->
             update_saved s d = (mkResponse 500 (message_body "Server error"), s)) as Href.
  { intros d Hi Hc He. unfold update_saved, accepts. rewrite Hi, Hc, He.
    destruct Hbad as [-> | ->]; rewrite ?andb_false_r; reflexivity. }
  destruct (truthy_opt (u_currentPassword b) && truthy_opt (u_newPassword b))%bool
    eqn:G.
  - apply andb_true_iff in G as [Gc Gn].
    apply truthy_opt_Some in Gc as (cur & Hc & Hc').
    apply truthy_opt_Some in Gn as (new & Hw & Hw').
    destruct (bcrypt_compare cur (password u)) eqn:Hcmp.
    + left. rewrite (update_route_match env uid b s u Hs cur new) by assumption.
      apply Href; [exact Hid | reflexivity | reflexivity].
    + right. apply (update_route_mismatch env uid b s u Hs cur new); assumption.
  - left. rewrite (update_route_plain env uid b s u Hs G).
    apply Href; [exact Hid | reflexivity | reflexivity].
Qed.

(** An update whose [birthdate] is a non-empty string that is not a date
    writes nothing at all, not even the other fields it supplies: the
    answer is 500 "Server error" (or the 400 of a wrong current password)
    and the store is as before. *)
Theorem update_bad_birthdate `{P : Platform} (env : Env) (uid : string) (b : UpdateBody)
    (s : Store) (u : User) (v : string) :
  s !! uid = Some u ->
  u_birthdate b = Some v -> v <> "" -> castDate v = None ->
  update_route env uid b s = (mkResponse 500 (message_body "Server error"), s) \/
  update_route env uid b s
  = (mkResponse 400 (message_body "Current password is incorrect"), s).
Proof.
  intros Hs Hb Hv Hc. apply (update_route_refused env uid b s u Hs). left.
  unfold assign_profile. rewrite Hb. unfold assign_truthy at 1.
  rewrite (truthy_true v Hv). unfold set_birthdate. rewrite Hc. reflexivity.
Qed.

Lemma update_bad_birthdate_witness :
  update_route (P := stub) sample_env "id1"
    (mkUpdateBody (Some "Al") None None (Some "tomorrow") None None) two_users
  = (mkResponse 500 (message_body "Server error"), two_users).
Proof.
  destruct (update_bad_birthdate (P := stub) sample_env "id1"
              (mkUpdateBody (Some "Al") None None (Some "tomorrow") None None)
              two_users alice "tomorrow"
              ltac:(vm_compute; reflexivity) ltac:(reflexivity) ltac:(discriminate)
              ltac:(vm_compute; reflexivity)) as [E|E].
  - exact E.
  - exfalso. vm_compute in E. discriminate.
Defined.

(** An update that sets the email to one another record holds writes
    nothing: the answer is 500 "Server error" (or the 400 of a wrong
    current password) and the store is as before. *)
Theorem update_email_conflict `{P : Platform} (env : Env) (uid : string)
    (b : UpdateBody) (s : Store) (u : User) (e : string) (j : string) (v : User) :
  s !! uid = Some u ->
  u_email b = Some e -> e <> "" ->
  s !! j = Some v -> j <> uid -> email v = e ->
  update_route env uid b s = (mkResponse 500 (message_body "Server error"), s) \/
  update_route env uid b s
  = (mkResponse 400 (message_body "Current password is incorrect"), s).
Proof.
  intros Hs Hb He Hj Hne Hv. apply (update_route_refused env uid b s u Hs). right.
  apply email_taken_true. exists j, v. split; [exact Hj|]. split; [|exact Hne].
  rewrite Hv. unfold assign_profile. rewrite Hb.
  unfold assign_truthy at 2. rewrite (truthy_true e He).
  unfold assign_truthy, assign_defined, set_birthdate.
  repeat case_match; reflexivity.
Qed.

Lemma update_email_conflict_witness :
  update_route (P := stub) sample_env "id1"
    (mkUpdateBody (Some "Al") (Some "b@x") None None None None) two_users
  = (mkResponse 500 (message_body "Server error"), two_users).
Proof.
  destruct (update_email_conflict (P := stub) sample_env "id1"
              (mkUpdateBody (Some "Al") (Some "b@x") None None None None)
              two_users alice "b@x" "id2" bob
              ltac:(vm_compute; reflexivity) ltac:(reflexivity) ltac:(discriminate)
              ltac:(vm_compute; reflexivity) ltac:(discriminate) ltac:(reflexivity))
    as [E|E].
  - exact E.
  - exfalso. vm_compute in E. discriminate.
Defined.

Lemma update_route_found_docs `{P : Platform} (env : Env) (uid : string)
    (b : UpdateBody) (s : Store) (u : User) :
  s !! uid = Some u ->
  update_route env uid b s
  = (mkResponse 400 (message_body "Current password is incorrect"), s) \/
  update_route env uid b s = update_saved s (assign_profile b (mkDoc uid u false)) \/
  exists h : string,
    update_route env uid b s
    = update_saved s (set_password h (assign_profile b (mkDoc uid u false))).
Proof.
  intros Hs.
  destruct (truthy_opt (u_currentPassword b) && truthy_opt (u_newPassword b))%bool
    eqn:G.
  - apply andb_true_iff in G as [Gc Gn].
    apply truthy_opt_Some in Gc as (cur & Hc & Hc').
    apply truthy_opt_Some in Gn as (new & Hw & Hw').
    destruct (bcrypt_compare cur (password u)) eqn:Hcmp.
    + right. right. eexists.
      apply (update_route_match env uid b s u Hs cur new); assumption.
    + left. apply (update_route_mismatch env uid b s u Hs cur new); assumption.
  - right. left. apply (update_route_plain env uid b s u Hs G).
Qed.

Lemma assign_profile_falsy `{P : Platform} (b : UpdateBody) (d : Doc) :
  (truthy_opt (u_name b) = false ->
   name (fields (assign_profile b d)) = name (fields d)) /\
  (truthy_opt (u_email b) = false ->
   email (fields (assign_profile b d)) = email (fields d)) /\
  (truthy_opt (u_birthdate b) = false ->
   birthdate (fields (assign_profile b d)) = birthdate (fields d)) /\
  (truthy_opt (u_birthdate b) = false ->
   castError (assign_profile b d) = castError d) /\
  (forall ph : string,
      u_phone b = Some ph -> phone (fields (assign_profile b d)) = ph) /\
  (u_phone b = None -> phone (fields (assign_profile b d)) = phone (fields d)).
Proof.
  unfold assign_profile, assign_truthy, assign_defined, set_birthdate.
  destruct b as [n e p bd c w]; simpl.
  destruct n as [n|], e as [e|], p as [p|], bd as [bd|]; simpl;
    repeat match goal with
           | |- context [truthy ?x] => destruct (truthy x); simpl
           | |- context [castDate ?x] => destruct (castDate x) eqn:?; simpl
           end;
    repeat split; intros; try discriminate; try congruence; reflexivity.
Qed.

(** Empty strings in an update.  For any update of an existing user: an
    empty [name], [email] or [birthdate] is ignored, each one by itself
    and whatever else the request carries, and the stored value stays;
    an empty [phone] is written, so that after an answer 200 the stored
    phone is empty.  And when the request carries an empty [phone] and
    nothing else to write (no name, email or birthdate, or empty ones,
    and no password change), a valid record in a store with unique emails
    gets exactly its phone cleared and the answer is 200 with the
    resulting profile. *)
Theorem update_empty_members `{P : Platform} (env : Env) (uid : string)
    (b : UpdateBody) (s : Store) (u : User) :
  s !! uid = Some u ->
  (exists u' : User,
      snd (update_route env uid b s) !! uid = Some u' /\
      (u_name b = Some "" -> name u' = name u) /\
      (u_email b = Some "" -> email u' = email u) /\
      (u_birthdate b = Some "" -> birthdate u' = birthdate u) /\
      (u_phone b = Some "" -> status (fst (update_route env uid b s)) = 200 ->
       phone u' = ""))
  /\
  (required_ok u = true -> email_unique s ->
   truthy_opt (u_name b) = false -> truthy_opt (u_email b) = false ->
   truthy_opt (u_birthdate b) = false -> u_phone b = Some "" ->
   (truthy_opt (u_currentPassword b) && truthy_opt (u_newPassword b))%bool = false ->
   update_route env uid b s
   = (mkResponse 200
        (JObj [("message", JStr "User updated successfully");
               ("user",
                 profile (mkDoc uid
                            (mkUser (name u) (email u) (password u) "" (birthdate u)
                                    (createdAt u)) false))]),
      <[uid := mkUser (name u) (email u) (password u) "" (birthdate u) (createdAt u)]> s)).
Proof.
  intros Hs.
  pose proof (assign_profile_falsy b (mkDoc uid u false))
    as (Hn & He & Hb & Hce & Hp & _).
  pose proof (assign_profile_id b (mkDoc uid u false)) as Hid.
  pose proof (assign_profile_password b (mkDoc uid u false)) as Hpw.
  pose proof (assign_profile_createdAt b (mkDoc uid u false)) as Hcr.
  simpl in Hn, He, Hb, Hce, Hp, Hid, Hpw, Hcr.
  split.
  - assert (forall (r : Response) (d : Doc),
               _id d = uid ->
               name (fields d) = name (fields (assign_profile b (mkDoc uid u false))) ->
               email (fields d) = email (fields (assign_profile b (mkDoc uid u false))) ->
               birthdate (fields d)
               = birthdate (fields (assign_profile b (mkDoc uid u false))) ->
               phone (fields d) = phone (fields (assign_profile b (mkDoc uid u false))) ->
               exists u' : User,
                 snd (update_saved s d) !! uid = Some u' /\
                 (u_name b = Some "" -> name u' = name u) /\
                 (u_email b = Some "" -> email u' = email u) /\
                 (u_birthdate b = Some "" -> birthdate u' = birthdate u) /\
                 (u_phone b = Some "" -> status (fst (update_saved s d)) = 200 ->
                  phone u' = "")) as Hsaved.
    { intros _ d Hi En Ee Eb Ep. unfold update_saved. destruct (accepts s d).
      - exists (fields d). simpl. rewrite Hi, lookup_insert_eq.
        split; [reflexivity|]. rewrite En, Ee, Eb, Ep.
        repeat split.
        + intros E. apply Hn. rewrite E. reflexivity.
        + intros E. apply He. rewrite E. reflexivity.
        + intros E. apply Hb. rewrite E. reflexivity.
        + intros E _. apply Hp. exact E.
      - exists u. simpl. split; [exact Hs|].
        repeat split; try reflexivity. intros _ [=]. }
    destruct (update_route_found_docs env uid b s u Hs) as [E|[E|[h E]]]; rewrite E.
    + exists u. simpl. split; [exact Hs|].
      repeat split; try reflexivity. intros _ [=].
    + apply (Hsaved (mkResponse 200 (JStr ""))); [exact Hid | reflexivity ..].
    + apply (Hsaved (mkResponse 200 (JStr ""))); [exact Hid | reflexivity ..].
  - intros Hreq Hu Tn Te Tb Tp G.
    rewrite (update_route_plain env uid b s u Hs G).
    assert (assign_profile b (mkDoc uid u false)
            = mkDoc uid (mkUser (name u) (email u) (password u) "" (birthdate u)
                                (createdAt u)) false) as ->.
    { specialize (Hn Tn). specialize (He Te). specialize (Hb Tb).
      specialize (Hce Tb). specialize (Hp "" Tp).
      destruct (assign_profile b (mkDoc uid u false)) as [i [n e pw ph bd cr] ce].
      simpl in *. subst. reflexivity. }
    unfold update_saved.
    rewrite accepts_intro; [reflexivity | reflexivity | exact Hreq |].
    simpl. intros j v Hj Hv. exact (Hu j uid v u Hj Hs Hv).
Qed.

Lemma update_empty_members_witness :
  (exists u' : User,
      snd (update_route (P := stub) sample_env "id1"
             (mkUpdateBody (Some "") None None None None None) two_users) !! "id1"
      = Some u' /\ name u' = name alice)
  /\
  snd (update_route (P := stub) sample_env "id2"
         (mkUpdateBody (Some "") None (Some "") None None None)
         (<["id2" := mkUser "B" "b@x" "salt$hunter2" "555" None 1000600]> two_users))
    !! "id2"
  = Some (mkUser "B" "b@x" "salt$hunter2" "" None 1000600).
Proof.
  split.
  - destruct (proj1 (update_empty_members (P := stub) sample_env "id1"
                       (mkUpdateBody (Some "") None None None None None) two_users alice
                       ltac:(vm_compute; reflexivity)))
      as (u' & Hs & Hn & _).
    exists u'. split; [exact Hs | apply Hn; reflexivity].
  - rewrite (proj2 (update_empty_members (P := stub) sample_env "id2"
                      (mkUpdateBody (Some "") None (Some "") None None None)
                      (<["id2" := mkUser "B" "b@x" "salt$hunter2" "555" None 1000600]>
                         two_users)
                      (mkUser "B" "b@x" "salt$hunter2" "555" None 1000600)
                      ltac:(apply lookup_insert_eq))).
    + simpl. apply lookup_insert_eq.
    + vm_compute. reflexivity.
    + apply email_uniqueb_sound. vm_compute. reflexivity.
    + reflexivity.
    + reflexivity.
    + reflexivity.
    + reflexivity.
    + reflexivity.
Defined.

Lemma login_route_mismatch `{P : Platform} (env : Env) (b : LoginBody) (s : Store)
    (d : Doc) (p : string) :
  find_by_email (l_email b) s = Some d ->
  l_password b = Some p ->
  bcrypt_compare p (password (fields d)) = false ->
  login_route env b s = (mkResponse 400 (message_body "Invalid credentials"), s).
Proof.
  intros Hf Hp Hcmp.
  unfold login_route, login_handler, try_catch, bind, findOne.
  rewrite Hf, Hp. simpl. unfold bind, ret. rewrite Hcmp. reflexivity.
Qed.

(** Change the password, then log in: after an update that only changes
    the password, with the current one verifying, a login with the new
    password is answered 200 with a token for the same user, and a login
    with a password the new digest does not verify is answered 400.
    (Stated for a valid record in a store with unique emails and a
    non-empty new digest that verifies for its own plaintext.) *)
Theorem password_change_then_login `{P : Platform} (env env' : Env) (uid : string)
    (s : Store) (u : User) (cur new : string) :
  s !! uid = Some u -> required_ok u = true -> email_unique s ->
  cur <> "" -> new <> "" ->
  bcrypt_compare cur (password u) = true ->
  bcrypt_hash new (salt env) <> "" ->
  bcrypt_compare new (bcrypt_hash new (salt env)) = true ->
  let b := mkUpdateBody None None None None (Some cur) (Some new) in
  let s1 := snd (update_route env uid b s) in
  let u1 := mkUser (name u) (email u) (bcrypt_hash new (salt env)) (phone u)
                   (birthdate u) (createdAt u) in
  s1 = <[uid := u1]> s /\
  login_route env' (mkLoginBody (Some (email u)) (Some new)) s1
  = (mkResponse 200
       (JObj [("message", JStr "Login successful");
              ("token", JStr (jwt_sign uid (email u) (secret env') (now env')));
              ("user", profile (mkDoc uid u1 false))]),
     s1) /\
  (forall old : string,
      bcrypt_compare old (bcrypt_hash new (salt env)) = false ->
      login_route env' (mkLoginBody (Some (email u)) (Some old)) s1
      = (mkResponse 400 (message_body "Invalid credentials"), s1)).
Proof.
  intros Hs Hreq Hu Hc Hn Hcmp Hh Hself b s1 u1.
  assert (s1 = <[uid := u1]> s) as E.
  { subst s1 b. rewrite (update_route_match env uid _ s u Hs cur new) by
        (assumption || reflexivity).
    unfold update_saved. rewrite accepts_intro; [reflexivity | reflexivity | |].
    - unfold required_ok in *. simpl.
      apply andb_true_iff in Hreq as [Hreq _]. rewrite Hreq.
      apply (proj2 (truthy_nonempty _)). exact Hh.
    - simpl. intros j v Hj Hv. exact (Hu j uid v u Hj Hs Hv). }
  assert (find_by_email (Some (email u)) s1 = Some (mkDoc uid u1 false)) as Hf.
  { rewrite E. apply (find_by_email_only _ uid u1).
    - apply lookup_insert_eq.
    - intros j v Hj Hv. simpl in Hv.
      destruct (string_dec j uid) as [|Hne]; [assumption|].
      rewrite lookup_insert_ne in Hj by congruence.
      exact (Hu j uid v u Hj Hs Hv). }
  split; [exact E|]. split.
  - apply (login_route_verified env' (mkLoginBody (Some (email u)) (Some new)) s1
             (mkDoc uid u1 false) new); [exact Hf | reflexivity | exact Hself].
  - intros old Hold.
    apply (login_route_mismatch env' (mkLoginBody (Some (email u)) (Some old)) s1
             (mkDoc uid u1 false) old); [exact Hf | reflexivity | exact Hold].
Qed.

Lemma password_change_then_login_witness :
  status (fst (login_route (P := stub) (mkEnv None 2000000 "id4" "pepper")
                 (mkLoginBody (Some (email alice)) (Some "fresh"))
                 (snd (update_route (P := stub) sample_env "id1"
                         (mkUpdateBody None None None None (Some "secret1") (Some "fresh"))
                         two_users))))
  = 200.
Proof.
  pose proof (password_change_then_login (P := stub) sample_env
                (mkEnv None 2000000 "id4" "pepper") "id1" two_users alice
                "secret1" "fresh") as Hl.
  cbv zeta in Hl. destruct Hl as (_ & Hok & _).
  - vm_compute. reflexivity.
  - reflexivity.
  - apply email_uniqueb_sound. vm_compute. reflexivity.
  - discriminate.
  - discriminate.
  - vm_compute. reflexivity.
  - discriminate.
  - vm_compute. reflexivity.
  - rewrite Hok. reflexivity.
Defined.

Lemma serve_answers_witness :
  error_shaped (fst (serve (P := stub) sample_env (GetMe None) two_users)).
Proof.
  apply (proj2 (proj2 (serve_answers (P := stub) sample_env (GetMe None) two_users)));
    vm_compute; discriminate.
Defined.

Lemma split_concat_witness : has_char "." "abc" = false.
Proof.
  apply (proj2 (split_concat "." "abc.def") "abc"). left. reflexivity.
Defined.

(** ** The avatar address *)

Lemma append_length (a t : string) :
  String.length (a ++ t) = (String.length a + String.length t)%nat.
Proof. induction a as [|c a IH]; simpl; [reflexivity | rewrite IH; reflexivity]. Qed.

Lemma append_inv_tail (a b t : string) : a ++ t = b ++ t -> a = b.
Proof.
  revert b. induction a as [|c a IH]; intros [|c' b] Heq; simpl in Heq.
  - reflexivity.
  - exfalso. apply (f_equal String.length) in Heq.
    change (String.length t = S (String.length (b ++ t))) in Heq.
    rewrite append_length in Heq. lia.
  - exfalso. apply (f_equal String.length) in Heq.
    change (S (String.length (a ++ t)) = String.length t) in Heq.
    rewrite append_length in Heq. lia.
  - injection Heq as -> Heq. rewrite (IH b Heq). reflexivity.
Qed.

Lemma append_inv_head (h a b : string) : h ++ a = h ++ b -> a = b.
Proof.
  induction h as [|c h IH]; simpl; intros Heq; [exact Heq|].
  injection Heq as Heq. exact (IH Heq).
Qed.

(** The avatar address in the login, profile and update answers
    determines the name: two users get the same [profileImage] only when
    their names are equal. *)
Theorem profileImage_inj (n1 n2 : string) :
  profileImage n1 = profileImage n2 -> n1 = n2.
Proof.
  unfold profileImage. intros Heq.
  apply append_inv_head, append_inv_tail in Heq.
  exact (encodeURIComponent_inj n1 n2 Heq).
Qed.

Lemma profileImage_inj_witness : "Ada L" = "Ada L".
Proof. apply (profileImage_inj "Ada L" "Ada L"). reflexivity. Defined.
